(** * gerenciamentoSom: the storage service of the equipment tracker

    A shallow embedding of [src/services/storage.ts].  The service keeps two
    JSON arrays in the browser's [localStorage], one under [STORAGE_KEY]
    (equipment) and one under [NOTIFICATIONS_KEY] (notifications); every
    operation reads a whole array, changes it in memory and writes it back.

    Modelling choices:
    - [localStorage] is a record of the two keys; a key that was never written
      is [None] ([getItem] returns [null]).  [JSON.stringify] of an array is
      never the empty string, so [!stored] holds exactly for [None], and on
      these records [JSON.parse (JSON.stringify v)] is [v].
    - [INITIAL_DATA] is a module-level array object.  [getAll] hands out that
      very object when nothing is stored, and [toggleStatus], [addLog] and
      [resolveMaintenance] mutate the item they found in place, so the world
      carries the in-memory contents of that object next to the storage.
    - [new Date().toISOString()], [Date.now()] and [Math.random()] are inputs
      of the operations that read them.
    - [await delay(ms)] has no effect on the stored data and is left out. *)

From Stdlib Require Import List String ZArith Bool Lia Permutation Sorted.
Import ListNotations.
Local Open Scope string_scope.
Local Open Scope list_scope.

(** ** Data model ([../types], reconstructed from its uses) *)

(** Modelled from the spec: the declaration of [EquipmentStatus] in
    [types.ts] is missing; the spec gives the enumeration
    available | in_use | maintenance, and these are the three literals the
    seed data and the service use. *)
Inductive EquipmentStatus : Type := available | in_use | maintenance.

(** Modelled from the spec: the declaration of [UserRole] in [types.ts] is
    missing; the spec gives admin | user, the two literals of [handleLogin]. *)
Inductive UserRole : Type := admin | user.

Definition UserRole_eqb (a b : UserRole) : bool :=
  match a, b with
  | admin, admin | user, user => true
  | _, _ => false
  end.

(** Modelled from the spec: [MaintenanceLog] of [types.ts]; the fields are
    those of the seed data and of [handleReportIssue], with the optional
    [resolvedAt] written by [resolveMaintenance]. *)
Record MaintenanceLog : Type := mkLog {
  log_id : string;
  log_date : string;
  log_description : string;
  log_reportedBy : string;
  log_reportedById : string;
  log_resolvedAt : option string
}.

(** Modelled from the spec: [Equipment] of [types.ts]; the fields are those
    of the seed records. *)
Record Equipment : Type := mkEquipment {
  eq_id : string;
  eq_name : string;
  eq_brand : string;
  eq_category : string;
  eq_status : EquipmentStatus;
  eq_purchaseDate : string;
  eq_logs : list MaintenanceLog
}.

(** Modelled from the spec: [AppNotification] of [types.ts]; [n_type] is the
    string literal the service writes ('alert', 'success'), the three
    recipient and relation fields are optional. *)
Record AppNotification : Type := mkNotification {
  n_id : string;
  n_date : string;
  n_read : bool;
  n_message : string;
  n_type : string;
  n_recipientRole : option UserRole;
  n_recipientUserId : option string;
  n_relatedEquipmentId : option string
}.

(** [Omit<AppNotification, 'id' | 'date' | 'read'>] *)
Record NotificationData : Type := mkData {
  d_message : string;
  d_type : string;
  d_recipientRole : option UserRole;
  d_recipientUserId : option string;
  d_relatedEquipmentId : option string
}.

(** In-place assignments of the service, as functional record updates. *)
Definition set_status (s : EquipmentStatus) (e : Equipment) : Equipment :=
  mkEquipment (eq_id e) (eq_name e) (eq_brand e) (eq_category e) s
              (eq_purchaseDate e) (eq_logs e).

Definition set_logs (ls : list MaintenanceLog) (e : Equipment) : Equipment :=
  mkEquipment (eq_id e) (eq_name e) (eq_brand e) (eq_category e) (eq_status e)
              (eq_purchaseDate e) ls.

Definition set_resolvedAt (t : string) (l : MaintenanceLog) : MaintenanceLog :=
  mkLog (log_id l) (log_date l) (log_description l) (log_reportedBy l)
        (log_reportedById l) (Some t).

(** [{ ...n, read: true }] *)
Definition set_read (n : AppNotification) : AppNotification :=
  mkNotification (n_id n) (n_date n) true (n_message n) (n_type n)
                 (n_recipientRole n) (n_recipientUserId n)
                 (n_relatedEquipmentId n).

(** ** Initial seed data *)

Definition INITIAL_DATA : list Equipment :=
  [ mkEquipment "1" "Shure SM58" "Shure" "Microfones" available "2023-01-15" [];
    mkEquipment "2" "Behringer X32" "Behringer" "Mesas de Som" in_use
                "2022-05-20" [];
    mkEquipment "3" "Cabo XLR 10m" "Santo Angelo" "Cabos" maintenance
                "2023-08-10"
                [ mkLog "log-1" "2023-10-25" "Conector com mau contato"
                        "Usuário Padrão" "user-1" None ];
    mkEquipment "4" "Yamaha DBR10" "Yamaha" "Caixas de Som" available
                "2021-11-05" [] ].

(** ** The world: the module's array object and the two storage keys *)

Record World : Type := mkWorld {
  seed_object : list Equipment;                  (* contents of INITIAL_DATA *)
  sound_equip_db_v1 : option (list Equipment);   (* STORAGE_KEY *)
  sound_equip_notifications_v1 : option (list AppNotification)
                                                 (* NOTIFICATIONS_KEY *)
}.

(** A freshly loaded page with empty storage. *)
Definition fresh_world : World := mkWorld INITIAL_DATA None None.

(** The service is a sequence of reads and writes of the world. *)
Definition M (A : Type) : Type := World -> A * World.

Definition ret {A} (a : A) : M A := fun w => (a, w).
Definition bind {A B} (c : M A) (k : A -> M B) : M B :=
  fun w => let (a, w') := c w in k a w'.

Notation "x <- c ;; k" := (bind c (fun x => k))
  (at level 61, c at next level, right associativity).
Notation "c ;;; k" := (bind c (fun _ => k))
  (at level 61, right associativity).

Definition getItem_equipment : M (option (list Equipment)) :=
  fun w => (sound_equip_db_v1 w, w).
Definition setItem_equipment (l : list Equipment) : M unit :=
  fun w => (tt, mkWorld (seed_object w) (Some l)
                        (sound_equip_notifications_v1 w)).
Definition getItem_notifications : M (option (list AppNotification)) :=
  fun w => (sound_equip_notifications_v1 w, w).
Definition setItem_notifications (l : list AppNotification) : M unit :=
  fun w => (tt, mkWorld (seed_object w) (sound_equip_db_v1 w) (Some l)).

(** What [getAll] returns: the elements, and whether the array is the
    [INITIAL_DATA] object itself rather than a freshly parsed copy. *)
Record Fetched : Type := mkFetched {
  items : list Equipment;
  is_seed_object : bool
}.

Definition read_seed_object : M (list Equipment) :=
  fun w => (seed_object w, w).

(** Replace the first element with the given id: the effect, on an array, of
    assigning to the fields of the object that [find] returned. *)
Fixpoint assign_found (id : string) (e' : Equipment) (l : list Equipment)
  : list Equipment :=
  match l with
  | [] => []
  | i :: r => if String.eqb (eq_id i) id then e' :: r
              else i :: assign_found id e' r
  end.

(** Mutating an item of a fetched array reaches [INITIAL_DATA] when the array
    is that object, and only a temporary copy otherwise. *)
Definition mutate_found (f : Fetched) (id : string) (e' : Equipment) : M unit :=
  fun w =>
    if is_seed_object f
    then (tt, mkWorld (assign_found id e' (seed_object w))
                      (sound_equip_db_v1 w) (sound_equip_notifications_v1 w))
    else (tt, w).

(** ** Equipment methods *)

Definition getAll : M Fetched :=
  stored <- getItem_equipment ;;
  match stored with
  | None =>
      seed <- read_seed_object ;;
      setItem_equipment seed ;;;
      ret (mkFetched seed true)
  | Some parsed => ret (mkFetched parsed false)
  end.

Definition same_id (id : string) (i : Equipment) : bool :=
  String.eqb (eq_id i) id.

Definition save (equipment : Equipment) : M Equipment :=
  fetched <- getAll ;;
  let exists_ := find (same_id (eq_id equipment)) (items fetched) in
  let newItems :=
    match exists_ with
    | Some _ => map (fun i => if same_id (eq_id equipment) i
                              then equipment else i) (items fetched)
    | None => items fetched ++ [equipment]
    end in
  setItem_equipment newItems ;;;
  ret equipment.

Definition delete (id : string) : M unit :=
  fetched <- getAll ;;
  let newItems := filter (fun i => negb (same_id id i)) (items fetched) in
  setItem_equipment newItems.

Definition toggleStatus (id : string) (newStatus : EquipmentStatus)
  : M (option Equipment) :=
  fetched <- getAll ;;
  match find (same_id id) (items fetched) with
  | Some item =>
      let item := set_status newStatus item in
      mutate_found fetched id item ;;;
      save item ;;;
      ret (Some item)
  | None => ret None
  end.

(** ** Notification methods *)

Definition stored_notifications (w : World) : list AppNotification :=
  match sound_equip_notifications_v1 w with
  | Some l => l
  | None => []
  end.

(** [fresh] stands for [Date.now().toString() + Math.random().toString()] and
    [now] for [new Date().toISOString()]. *)
Definition createNotification (fresh now : string) (data : NotificationData)
  : M unit :=
  stored <- getItem_notifications ;;
  let allNotifications := match stored with Some l => l | None => [] end in
  let newNotification :=
    mkNotification fresh now false (d_message data) (d_type data)
                   (d_recipientRole data) (d_recipientUserId data)
                   (d_relatedEquipmentId data) in
  setItem_notifications (newNotification :: allNotifications).

Definition addLog (id : string) (log : MaintenanceLog) (fresh now : string)
  : M (option Equipment) :=
  fetched <- getAll ;;
  match find (same_id id) (items fetched) with
  | Some item =>
      let item := set_logs (eq_logs item ++ [log]) item in
      let item := set_status maintenance item in
      mutate_found fetched id item ;;;
      save item ;;;
      createNotification fresh now
        (mkData (log_reportedBy log ++ " reportou um problema em: "
                   ++ eq_name item)%string
                "alert" (Some admin) None (Some (eq_id item))) ;;;
      ret (Some item)
  | None => ret None
  end.

(** JavaScript truthiness of a string: every string but the empty one. *)
Definition truthy (s : string) : bool := negb (String.eqb s "").

(** [lastLog.resolvedAt = stamp] on the last element of the array. *)
Fixpoint stamp_last (stamp : string) (ls : list MaintenanceLog)
  : list MaintenanceLog :=
  match ls with
  | [] => []
  | [l] => [set_resolvedAt stamp l]
  | l :: r => l :: stamp_last stamp r
  end.

(** [stamp] is the [new Date().toISOString()] read for [resolvedAt]; [fresh]
    and [now] are the values read by [createNotification]. *)
Definition resolveMaintenance (id : string) (stamp fresh now : string)
  : M (option Equipment) :=
  fetched <- getAll ;;
  match find (same_id id) (items fetched) with
  | Some item =>
      let item := set_status available item in
      let reportedById :=
        match eq_logs item with
        | [] => None
        | l0 :: r => Some (log_reportedById (last r l0))
        end in
      let item := set_logs (stamp_last stamp (eq_logs item)) item in
      mutate_found fetched id item ;;;
      save item ;;;
      match reportedById with
      | Some rid =>
          if truthy rid
          then createNotification fresh now
                 (mkData ("O equipamento " ++ eq_name item
                            ++ " foi reparado e está disponível.")%string
                         "success" None (Some rid) (Some (eq_id item)))
          else ret tt
      | None => ret tt
      end ;;;
      ret (Some item)
  | None => ret None
  end.

(** The filter shared by [getNotifications] and [markAllRead]:
    [(n.recipientRole === role) || (n.recipientUserId === userId)]. *)
Definition addressed_to (userId : string) (role : UserRole)
  (n : AppNotification) : bool :=
  match n_recipientRole n with
  | Some r => UserRole_eqb r role
  | None => false
  end
  ||
  match n_recipientUserId n with
  | Some u => String.eqb u userId
  | None => false
  end.

Section Sorting.

(** [new Date(s).getTime()]: the milliseconds of the date a string denotes,
    [None] for the NaN of a string that is not a date.  Date parsing is the
    engine's; the service is verified for any such function. *)
Variable getTime : string -> option Z.

(** [(a, b) => new Date(b.date).getTime() - new Date(a.date).getTime()];
    [None] is NaN. *)
Definition compareFn (a b : AppNotification) : option Z :=
  match getTime (n_date b), getTime (n_date a) with
  | Some tb, Some ta => Some (tb - ta)%Z
  | _, _ => None
  end.

(** [Array.prototype.sort] calls the comparator through SortCompare, which
    reads NaN as +0; [a] stays in front of [b] unless the result is
    positive. *)
Definition keeps_order (a b : AppNotification) : bool :=
  match compareFn a b with
  | Some v => (v <=? 0)%Z
  | None => true
  end.

(** [Array.prototype.sort] is a stable sort; it is modelled by the stable
    insertion sort, which is what every conforming engine computes when
    the comparator is a consistent order, that is when the dates of the
    sorted notifications all parse.  When one does not, the language leaves
    the order to the engine: of the model's answer only what is true of
    every engine is then used, that it is a rearrangement of the sorted
    array and depends on nothing but that array. *)
Fixpoint sort_insert (a : AppNotification) (l : list AppNotification)
  : list AppNotification :=
  match l with
  | [] => [a]
  | b :: r => if keeps_order a b then a :: b :: r
              else b :: sort_insert a r
  end.

Definition sort (l : list AppNotification) : list AppNotification :=
  fold_right sort_insert [] l.

Definition getNotifications (userId : string) (role : UserRole)
  : M (list AppNotification) :=
  stored <- getItem_notifications ;;
  let allNotifications := match stored with Some l => l | None => [] end in
  ret (sort (filter (addressed_to userId role) allNotifications)).

(** [a] is at least as recent as [b]. *)
Definition not_older (a b : AppNotification) : Prop :=
  match getTime (n_date a), getTime (n_date b) with
  | Some ta, Some tb => (tb <= ta)%Z
  | _, _ => False
  end.


End Sorting.

Definition markNotificationRead (notificationId : string) : M unit :=
  stored <- getItem_notifications ;;
  match stored with
  | None => ret tt
  | Some allNotifications =>
      let updated :=
        map (fun n => if String.eqb (n_id n) notificationId
                      then set_read n else n) allNotifications in
      setItem_notifications updated
  end.

Definition markAllRead (userId : string) (role : UserRole) : M unit :=
  stored <- getItem_notifications ;;
  match stored with
  | None => ret tt
  | Some allNotifications =>
      let updated :=
        map (fun n => if addressed_to userId role n
                      then set_read n else n) allNotifications in
      setItem_notifications updated
  end.

(** ** Runs of the facade *)

(** The collection [getAll] answers with in a world: the stored array, or
    the seed object while nothing is stored. *)
Definition collection (w : World) : list Equipment :=
  match sound_equip_db_v1 w with
  | Some l => l
  | None => seed_object w
  end.

(** One call of a method of [storageService], with the values it reads from
    the clock and the random generator. *)
Inductive Call : Type :=
| call_getAll
| call_save (equipment : Equipment)
| call_delete (id : string)
| call_toggleStatus (id : string) (newStatus : EquipmentStatus)
| call_addLog (id : string) (log : MaintenanceLog) (fresh now : string)
| call_resolveMaintenance (id : string) (stamp fresh now : string)
| call_createNotification (fresh now : string) (data : NotificationData)
| call_markNotificationRead (notificationId : string)
| call_markAllRead (userId : string) (role : UserRole).

(** The world after a call.  [getNotifications] only reads. *)
Definition after (c : Call) (w : World) : World :=
  match c with
  | call_getAll => snd (getAll w)
  | call_save e => snd (save e w)
  | call_delete id => snd (delete id w)
  | call_toggleStatus id s => snd (toggleStatus id s w)
  | call_addLog id log fresh now => snd (addLog id log fresh now w)
  | call_resolveMaintenance id stamp fresh now =>
      snd (resolveMaintenance id stamp fresh now w)
  | call_createNotification fresh now data =>
      snd (createNotification fresh now data w)
  | call_markNotificationRead nid => snd (markNotificationRead nid w)
  | call_markAllRead u r => snd (markAllRead u r w)
  end.

(** Worlds reachable from a fresh page by calls that satisfy [allowed]. *)
Inductive reachable_by (allowed : Call -> Prop) : World -> Prop :=
| reach_fresh : reachable_by allowed fresh_world
| reach_call : forall w c,
    reachable_by allowed w -> allowed c -> reachable_by allowed (after c w).

Definition reachable : World -> Prop := reachable_by (fun _ => True).

(** The most recent log of an item. *)
Definition last_log (e : Equipment) : option MaintenanceLog :=
  match eq_logs e with
  | [] => None
  | l0 :: r => Some (last r l0)
  end.

(** The status follows the most recent log: "maintenance" while it is
    unresolved, "available" once it is resolved. *)
Definition status_follows_log (e : Equipment) : Prop :=
  match last_log e with
  | None => True
  | Some l =>
      match log_resolvedAt l with
      | None => eq_status e = maintenance
      | Some _ => eq_status e = available
      end
  end.

(** The calls of the report/resolve cycle: everything but a direct [save] or
    [toggleStatus], and reports that carry no resolution yet. *)
Definition cycle_call (c : Call) : Prop :=
  match c with
  | call_save _ | call_toggleStatus _ _ => False
  | call_addLog _ log _ _ => log_resolvedAt log = None
  | _ => True
  end.

(** ** What each method computes *)

(** The array written back by a [save] that found the id. *)
Definition replaced (id : string) (e' : Equipment) (l : list Equipment)
  : list Equipment :=
  map (fun i => if same_id id i then e' else i) l.

(** The seed object after an in-place mutation of a found item. *)
Definition seed_after (w : World) (id : string) (e' : Equipment)
  : list Equipment :=
  match sound_equip_db_v1 w with
  | Some _ => seed_object w
  | None => assign_found id e' (seed_object w)
  end.

Definition nothing_stored (w : World) : bool :=
  match sound_equip_db_v1 w with
  | Some _ => false
  | None => true
  end.

(** The item [addLog] writes. *)
Definition reported (log : MaintenanceLog) (item : Equipment) : Equipment :=
  set_status maintenance (set_logs (eq_logs item ++ [log]) item).

(** The notification [addLog] creates. *)
Definition alert_for (log : MaintenanceLog) (item : Equipment)
  (fresh now : string) : AppNotification :=
  mkNotification fresh now false
    (log_reportedBy log ++ " reportou um problema em: " ++ eq_name item)%string
    "alert" (Some admin) None (Some (eq_id item)).

(** The item [resolveMaintenance] writes. *)
Definition resolved (stamp : string) (item : Equipment) : Equipment :=
  set_logs (stamp_last stamp (eq_logs item)) (set_status available item).

(** The notification [resolveMaintenance] creates for reporter [rid]. *)
Definition success_for (rid : string) (item : Equipment) (fresh now : string)
  : AppNotification :=
  mkNotification fresh now false
    ("O equipamento " ++ eq_name item
       ++ " foi reparado e está disponível.")%string
    "success" None (Some rid) (Some (eq_id item)).

(** The notification key after [resolveMaintenance] on [item]. *)
Definition notifications_after_resolve (w : World) (item : Equipment)
  (fresh now : string) : option (list AppNotification) :=
  match last_log item with
  | Some l =>
      if truthy (log_reportedById l)
      then Some (success_for (log_reportedById l) item fresh now
                   :: stored_notifications w)
      else sound_equip_notifications_v1 w
  | None => sound_equip_notifications_v1 w
  end.

(** ** Sample data for the worked instances *)

(** A report as [handleReportIssue] builds it for the user "user-1". *)
Definition sample_log : MaintenanceLog :=
  mkLog "1700000000000" "2023-11-14T22:13:20.000Z" "Cabo com chiado"
        "João (Técnico)" "user-1" None.

(** A stored item whose only log carries the empty reporter id. *)
Definition anonymous_log : MaintenanceLog :=
  mkLog "log-9" "2024-01-01" "Sem som" "" "" None.

Definition anonymous_item : Equipment :=
  mkEquipment "9" "AKG P120" "AKG" "Microfones" maintenance "2024-01-01"
              [anonymous_log].

Definition anonymous_world : World :=
  mkWorld INITIAL_DATA (Some [anonymous_item]) None.

(** The world once the seed records are stored. *)
Definition seeded_world : World :=
  mkWorld INITIAL_DATA (Some INITIAL_DATA) None.

(** The third seed record, the one with a log. *)
Definition seed_cable : Equipment :=
  mkEquipment "3" "Cabo XLR 10m" "Santo Angelo" "Cabos" maintenance
              "2023-08-10"
              [ mkLog "log-1" "2023-10-25" "Conector com mau contato"
                      "Usuário Padrão" "user-1" None ].

Definition seed_microphone : Equipment :=
  mkEquipment "1" "Shure SM58" "Shure" "Microfones" available "2023-01-15" [].

Definition new_item : Equipment :=
  mkEquipment "5" "Pedestal" "RMV" "Acessórios" available "2024-02-02" [].

(** The resolution timestamps of all logs, item by item. *)
Definition resolution_times (w : World) : list (list (option string)) :=
  map (fun e => map log_resolvedAt (eq_logs e)) (collection w).

(** Three stored notifications, the oldest first, and the times of their
    dates. *)
Definition older_alert : AppNotification :=
  mkNotification "1698829200000" "2023-11-01T09:00:00.002Z" false
    "João (Técnico) reportou um problema em: Shure SM58" "alert"
    (Some admin) None (Some "1").

Definition newer_alert : AppNotification :=
  mkNotification "1700000000001" "2023-11-14T22:13:21.000Z" false
    "João (Técnico) reportou um problema em: Yamaha DBR10" "alert"
    (Some admin) None (Some "4").

Definition repaired_note : AppNotification :=
  mkNotification "1700000000999" "2023-11-15T08:00:00.000Z" false
    "O equipamento Shure SM58 foi reparado e está disponível." "success"
    None (Some "user-1") (Some "1").

Definition notified_world : World :=
  mkWorld INITIAL_DATA None
          (Some [older_alert; newer_alert; repaired_note]).

Definition sample_getTime (s : string) : option Z :=
  if String.eqb s "2023-11-01T09:00:00.002Z" then Some 1698829200002%Z
  else if String.eqb s "2023-11-14T22:13:21.000Z" then Some 1700000001000%Z
  else if String.eqb s "2023-11-15T08:00:00.000Z" then Some 1700035200000%Z
  else None.

(** ** The handlers of [App] that call the service *)

(** Modelled from the spec: [User] of [types.ts]; the fields are those
    [handleLogin] sets. *)
Record User : Type := mkUser {
  u_id : string;
  u_name : string;
  u_role : UserRole
}.

(** [handleLogin]: the user it sets and the view it navigates to. *)
Definition handleLogin (role : UserRole) : User * string :=
  (mkUser (if UserRole_eqb role admin then "admin-1" else "user-1")
          (if UserRole_eqb role admin then "Pr. Carlos (Admin)"
           else "João (Técnico)")
          role,
   if UserRole_eqb role admin then "dashboard" else "inventory").

(** The awaited part of [handleReportIssue]: the call of [addLog] with the
    log built from the logged-in user.  [now_ms] is [Date.now().toString()],
    [now_iso] is [new Date().toISOString()]; [fresh] and [notif_now] are the
    values [createNotification] reads.  Closing the dialog and the refresh
    that is started afterwards are separate from the stored data. *)
Definition handleReportIssue (reportItem : option Equipment)
  (user : option User) (description : string)
  (now_ms now_iso fresh notif_now : string) : M unit :=
  match reportItem, user with
  | Some item, Some u =>
      addLog (eq_id item)
             (mkLog now_ms now_iso description (u_name u) (u_id u) None)
             fresh notif_now ;;;
      ret tt
  | _, _ => ret tt
  end.

Section Handlers.

Variable getTime : string -> option Z.

(** [refreshData]: the values it hands to [setEquipment] and, when a user
    is logged in, to [setNotifications]. *)
Definition refreshData (user : option User)
  : M (list Equipment * option (list AppNotification)) :=
  data <- getAll ;;
  match user with
  | Some u =>
      notifs <- getNotifications getTime (u_id u) (u_role u) ;;
      ret (items data, Some notifs)
  | None => ret (items data, None)
  end.

(** [handleMarkRead]: the value it hands to [setNotifications], if any. *)
Definition handleMarkRead (user : option User) (id : string)
  : M (option (list AppNotification)) :=
  markNotificationRead id ;;;
  match user with
  | Some u =>
      notifs <- getNotifications getTime (u_id u) (u_role u) ;;
      ret (Some notifs)
  | None => ret None
  end.

(** [handleMarkAllRead]: the value it hands to [setNotifications], if any. *)
Definition handleMarkAllRead (user : option User)
  : M (option (list AppNotification)) :=
  match user with
  | Some u =>
      markAllRead (u_id u) (u_role u) ;;;
      notifs <- getNotifications getTime (u_id u) (u_role u) ;;
      ret (Some notifs)
  | None => ret None
  end.

End Handlers.

(** The stored keys of two worlds agree. *)
Definition same_storage (w1 w2 : World) : Prop :=
  sound_equip_db_v1 w1 = sound_equip_db_v1 w2 /\
  sound_equip_notifications_v1 w1 = sound_equip_notifications_v1 w2.

(** A notification is kept by a call: written back as it was, or with
    [read] set. *)
Definition kept_as (old new : AppNotification) : Prop :=
  new = old \/ new = set_read old.

(** The notification [createNotification] writes. *)
Definition created (fresh now : string) (data : NotificationData)
  : AppNotification :=
  mkNotification fresh now false (d_message data) (d_type data)
                 (d_recipientRole data) (d_recipientUserId data)
                 (d_relatedEquipmentId data).

(** The array written back by [markNotificationRead]. *)
Definition marked (notificationId : string) (l : list AppNotification)
  : list AppNotification :=
  map (fun n => if String.eqb (n_id n) notificationId then set_read n else n)
      l.

(** What a log says, apart from its resolution. *)
Definition log_report (l : MaintenanceLog)
  : string * string * string * string * string :=
  (log_id l, log_date l, log_description l, log_reportedBy l,
   log_reportedById l).

(** The calls the application makes: every method but a direct
    [createNotification], which only [addLog] and [resolveMaintenance]
    call. *)
Definition application_call (c : Call) : Prop :=
  match c with
  | call_createNotification _ _ _ => False
  | _ => True
  end.

(** A notification is either an alert broadcast to the admins or a success
    message for one user, and relates to an item. *)
Definition well_targeted (n : AppNotification) : Prop :=
  n_relatedEquipmentId n <> None /\
  ((n_type n = "alert" /\ n_recipientRole n = Some admin /\
    n_recipientUserId n = None) \/
   (n_type n = "success" /\ n_recipientRole n = None /\
    exists uid, n_recipientUserId n = Some uid /\ uid <> "")).



(** ** Run equations *)

Lemma getAll_run (w : World) :
  getAll w =
  (mkFetched (collection w) (nothing_stored w),
   mkWorld (seed_object w) (Some (collection w))
           (sound_equip_notifications_v1 w)).
Proof.
  destruct w as [seed [stored|] notifs]; reflexivity.
Qed.

Lemma find_same_id (id : string) (l : list Equipment) (item : Equipment) :
  find (same_id id) l = Some item -> eq_id item = id /\ In item l.
Proof.
  intros H. apply find_some in H. destruct H as [Hin Hid].
  split; [now apply String.eqb_eq | exact Hin].
Qed.

Lemma find_same_id_none (id : string) (l : list Equipment) :
  find (same_id id) l = None <-> ~ In id (map eq_id l).
Proof.
  split.
  - intros H Hin. apply in_map_iff in Hin. destruct Hin as [e [He Hin]].
    pose proof (find_none _ _ H e Hin) as Hf. unfold same_id in Hf.
    rewrite He, String.eqb_refl in Hf. discriminate.
  - intros H. destruct (find (same_id id) l) as [item|] eqn:Hf; [|reflexivity].
    apply find_same_id in Hf. destruct Hf as [Hid Hin]. exfalso. apply H.
    apply in_map_iff. now exists item.
Qed.

Lemma save_run (e : Equipment) (w : World) :
  save e w =
  (e, mkWorld (seed_object w)
        (Some match find (same_id (eq_id e)) (collection w) with
              | Some _ => replaced (eq_id e) e (collection w)
              | None => collection w ++ [e]
              end)
        (sound_equip_notifications_v1 w)).
Proof.
  unfold save, bind. rewrite getAll_run. reflexivity.
Qed.

Lemma delete_run (id : string) (w : World) :
  delete id w =
  (tt, mkWorld (seed_object w)
         (Some (filter (fun i => negb (same_id id i)) (collection w)))
         (sound_equip_notifications_v1 w)).
Proof.
  unfold delete, bind. rewrite getAll_run. reflexivity.
Qed.

(** The shared tail of [toggleStatus], [addLog] and [resolveMaintenance]:
    mutate the found item, then [save] it. *)
Lemma mutate_save_run {B : Type} (k : Equipment -> M B) (w : World)
  (id : string) (item item' : Equipment) :
  find (same_id id) (collection w) = Some item ->
  eq_id item' = id ->
  (mutate_found (mkFetched (collection w) (nothing_stored w)) id item' ;;;
   saved <- save item' ;; k saved)
    (mkWorld (seed_object w) (Some (collection w))
             (sound_equip_notifications_v1 w)) =
  k item' (mkWorld (seed_after w id item')
             (Some (replaced id item' (collection w)))
             (sound_equip_notifications_v1 w)).
Proof.
  intros Hfind Hid. unfold bind, mutate_found, seed_after, nothing_stored.
  destruct w as [seed [stored|] notifs]; cbn [is_seed_object sound_equip_db_v1
    seed_object sound_equip_notifications_v1 collection] in *;
    rewrite save_run; cbn [collection sound_equip_db_v1 seed_object
                           sound_equip_notifications_v1];
    rewrite Hid, Hfind; reflexivity.
Qed.

Lemma toggleStatus_found (w : World) (id : string) (s : EquipmentStatus)
  (item : Equipment) :
  find (same_id id) (collection w) = Some item ->
  toggleStatus id s w =
  (Some (set_status s item),
   mkWorld (seed_after w id (set_status s item))
           (Some (replaced id (set_status s item) (collection w)))
           (sound_equip_notifications_v1 w)).
Proof.
  intros Hfind. pose proof (find_same_id _ _ _ Hfind) as [Hid _].
  unfold toggleStatus. unfold bind at 1. rewrite getAll_run.
  cbn [items]. rewrite Hfind.
  rewrite (mutate_save_run _ w id item (set_status s item) Hfind Hid).
  reflexivity.
Qed.

Lemma not_found_run (w : World) :
  snd (getAll w) =
  mkWorld (seed_object w) (Some (collection w))
          (sound_equip_notifications_v1 w).
Proof. now rewrite getAll_run. Qed.

Lemma toggleStatus_not_found (w : World) (id : string) (s : EquipmentStatus) :
  find (same_id id) (collection w) = None ->
  toggleStatus id s w = (None, snd (getAll w)).
Proof.
  intros Hfind. unfold toggleStatus, bind. rewrite getAll_run.
  cbn [items]. now rewrite Hfind.
Qed.

Lemma addLog_found (w : World) (id : string) (log : MaintenanceLog)
  (fresh now : string) (item : Equipment) :
  find (same_id id) (collection w) = Some item ->
  addLog id log fresh now w =
  (Some (reported log item),
   mkWorld (seed_after w id (reported log item))
           (Some (replaced id (reported log item) (collection w)))
           (Some (alert_for log item fresh now :: stored_notifications w))).
Proof.
  intros Hfind. pose proof (find_same_id _ _ _ Hfind) as [Hid _].
  unfold addLog. unfold bind at 1. rewrite getAll_run.
  cbn [items]. rewrite Hfind.
  fold (reported log item).
  rewrite (mutate_save_run _ w id item (reported log item) Hfind Hid).
  reflexivity.
Qed.

Lemma addLog_not_found (w : World) (id : string) (log : MaintenanceLog)
  (fresh now : string) :
  find (same_id id) (collection w) = None ->
  addLog id log fresh now w = (None, snd (getAll w)).
Proof.
  intros Hfind. unfold addLog, bind. rewrite getAll_run.
  cbn [items]. now rewrite Hfind.
Qed.

Lemma resolveMaintenance_found (w : World) (id : string)
  (stamp fresh now : string) (item : Equipment) :
  find (same_id id) (collection w) = Some item ->
  resolveMaintenance id stamp fresh now w =
  (Some (resolved stamp item),
   mkWorld (seed_after w id (resolved stamp item))
           (Some (replaced id (resolved stamp item) (collection w)))
           (notifications_after_resolve w item fresh now)).
Proof.
  intros Hfind. pose proof (find_same_id _ _ _ Hfind) as [Hid _].
  unfold resolveMaintenance. unfold bind at 1. rewrite getAll_run.
  cbn [items]. rewrite Hfind.
  fold (resolved stamp item).
  rewrite (mutate_save_run _ w id item (resolved stamp item) Hfind Hid).
  unfold notifications_after_resolve, last_log.
  destruct item as [i n b c s p [|l0 r]]; cbn; [reflexivity|].
  destruct (truthy (log_reportedById (last r l0))); reflexivity.
Qed.

Lemma resolveMaintenance_not_found (w : World) (id : string)
  (stamp fresh now : string) :
  find (same_id id) (collection w) = None ->
  resolveMaintenance id stamp fresh now w = (None, snd (getAll w)).
Proof.
  intros Hfind. unfold resolveMaintenance, bind. rewrite getAll_run.
  cbn [items]. now rewrite Hfind.
Qed.

(** ** Facts about the written arrays *)

Lemma replaced_length (id : string) (e' : Equipment) (l : list Equipment) :
  List.length (replaced id e' l) = List.length l.
Proof. unfold replaced. apply length_map. Qed.

Lemma replaced_nth_error (id : string) (e' : Equipment) (l : list Equipment)
  (k : nat) :
  nth_error (replaced id e' l) k =
  option_map (fun i => if same_id id i then e' else i) (nth_error l k).
Proof. unfold replaced. apply nth_error_map. Qed.

Lemma find_replaced (id : string) (e' item : Equipment) (l : list Equipment) :
  find (same_id id) l = Some item ->
  eq_id e' = id ->
  find (same_id id) (replaced id e' l) = Some e'.
Proof.
  intros Hfind Hid. induction l as [|i r IH]; [discriminate|].
  cbn in *. destruct (same_id id i) eqn:Hi.
  - unfold same_id at 1. now rewrite Hid, String.eqb_refl.
  - rewrite Hi. now apply IH.
Qed.

Lemma In_replaced (id : string) (e' e : Equipment) (l : list Equipment) :
  In e (replaced id e' l) ->
  (e = e' /\ In id (map eq_id l)) \/ (In e l /\ eq_id e <> id).
Proof.
  unfold replaced. intros Hin. apply in_map_iff in Hin.
  destruct Hin as [i [Hi Hin]]. destruct (same_id id i) eqn:Hs.
  - left. split; [now symmetry|]. apply in_map_iff. exists i.
    split; [now apply String.eqb_eq|exact Hin].
  - right. subst e. split; [exact Hin|]. now apply String.eqb_neq.
Qed.

Lemma stamp_last_snoc (stamp : string) (ls : list MaintenanceLog)
  (l : MaintenanceLog) :
  stamp_last stamp (ls ++ [l]) = ls ++ [set_resolvedAt stamp l].
Proof.
  induction ls as [|a r IH]; [reflexivity|].
  cbn [app stamp_last]. rewrite IH.
  destruct r; reflexivity.
Qed.

Lemma logs_snoc (l0 : MaintenanceLog) (r : list MaintenanceLog) :
  l0 :: r = removelast (l0 :: r) ++ [last r l0].
Proof.
  destruct r as [|a r]; [reflexivity|].
  change (removelast (l0 :: a :: r)) with (l0 :: removelast (a :: r)).
  cbn [app]. f_equal. now apply app_removelast_last.
Qed.

Lemma last_log_snoc (e : Equipment) (ls : list MaintenanceLog)
  (l : MaintenanceLog) :
  eq_logs e = ls ++ [l] -> last_log e = Some l.
Proof.
  unfold last_log. intros ->. destruct ls as [|a r]; [reflexivity|].
  cbn [app]. f_equal. apply last_last.
Qed.

Lemma last_log_split (e : Equipment) (l : MaintenanceLog) :
  last_log e = Some l -> eq_logs e = removelast (eq_logs e) ++ [l].
Proof.
  unfold last_log. destruct (eq_logs e) as [|l0 r]; [discriminate|].
  intros [= <-]. apply logs_snoc.
Qed.

Lemma resolved_logs (stamp : string) (item : Equipment) (l : MaintenanceLog) :
  last_log item = Some l ->
  eq_logs (resolved stamp item) =
  removelast (eq_logs item) ++ [set_resolvedAt stamp l].
Proof.
  intros Hl. cbn. rewrite (last_log_split item l Hl) at 1.
  apply stamp_last_snoc.
Qed.

(** ** Reporting and resolving *)

(** C1.  When [id] is in the collection, [addLog id log] answers with the
    item it found, now with status "maintenance" and [log] appended last to
    its logs (one log more); that item is what the stored collection holds
    under [id]; and the stored notifications are the previous ones with one
    new unread notification in front, addressed to the role admin. *)
Theorem addLog_reports_issue (w : World) (id : string) (log : MaintenanceLog)
  (fresh now : string) (item : Equipment) :
  find (same_id id) (collection w) = Some item ->
  let result := fst (addLog id log fresh now w) in
  let w' := snd (addLog id log fresh now w) in
  exists item' n,
    result = Some item' /\
    sound_equip_db_v1 w' = Some (replaced id item' (collection w)) /\
    find (same_id id) (collection w') = Some item' /\
    (forall e, In e (collection w') -> eq_id e = id -> e = item') /\
    eq_status item' = maintenance /\
    eq_logs item' = eq_logs item ++ [log] /\
    List.length (eq_logs item') = S (List.length (eq_logs item)) /\
    last_log item' = Some log /\
    sound_equip_notifications_v1 w' = Some (n :: stored_notifications w) /\
    n_recipientRole n = Some admin /\
    n_recipientUserId n = None /\
    n_read n = false /\
    n_relatedEquipmentId n = Some id.
Proof.
  intros Hfind. pose proof (find_same_id _ _ _ Hfind) as [Hid _].
  rewrite (addLog_found w id log fresh now item Hfind). cbn [fst snd].
  exists (reported log item), (alert_for log item fresh now).
  assert (Hid' : eq_id (reported log item) = id) by exact Hid.
  repeat split; cbn [collection sound_equip_db_v1
                     sound_equip_notifications_v1]; try reflexivity.
  - now apply find_replaced with (item := item).
  - intros e Hin He. apply In_replaced in Hin.
    destruct Hin as [[-> _]|[_ Hne]]; [reflexivity|contradiction].
  - cbn. rewrite length_app. cbn. lia.
  - now apply last_log_snoc with (ls := eq_logs item).
  - cbn. now rewrite Hid.
Qed.

Lemma addLog_reports_issue_witness :
  find (same_id "1") (collection fresh_world) = Some seed_microphone /\
  exists item' n,
    fst (addLog "1" sample_log "1700000000001" "2023-11-14T22:13:21.000Z"
           fresh_world) = Some item' /\
    eq_status item' = maintenance /\
    eq_logs item' = [sample_log] /\
    n_recipientRole n = Some admin /\
    sound_equip_notifications_v1
      (snd (addLog "1" sample_log "1700000000001" "2023-11-14T22:13:21.000Z"
              fresh_world)) = Some [n].
Proof.
  split; [reflexivity|].
  destruct (addLog_reports_issue fresh_world "1" sample_log "1700000000001"
              "2023-11-14T22:13:21.000Z" seed_microphone eq_refl)
    as (item' & n & Hr & _ & _ & _ & Hs & Hl & _ & _ & Hn & Hrole & _).
  exists item', n. repeat split; assumption.
Defined.

(** C2, as stated, fails: an item whose last log has the empty reporter id
    is resolved without any notification being created. *)
Lemma resolve_empty_reporter_counterexample :
  find (same_id "9") (collection anonymous_world) = Some anonymous_item /\
  eq_logs anonymous_item <> [] /\
  sound_equip_notifications_v1
    (snd (resolveMaintenance "9" "2024-01-02T10:00:00.000Z" "17" 
            "2024-01-02T10:00:00.001Z" anonymous_world)) =
  sound_equip_notifications_v1 anonymous_world.
Proof.
  split; [reflexivity|]. split; [discriminate|]. reflexivity.
Qed.

(** C2 (amended).  When [id] is in the collection and the item found has a
    last log, [resolveMaintenance id] answers with the item, now with status
    "available" and the last log stamped with the resolution time (all other
    logs as they were), and that item is what the stored collection holds
    under [id].  When the last log's reporter id is not the empty string,
    the stored notifications are the previous ones with one new unread
    "success" notification in front whose recipient user id is that
    reporter id; when it is the empty string, no notification is created
    and the notification key is left as it was. *)
Theorem resolveMaintenance_resolves (w : World) (id : string)
  (stamp fresh now : string) (item : Equipment) (l : MaintenanceLog) :
  find (same_id id) (collection w) = Some item ->
  last_log item = Some l ->
  let result := fst (resolveMaintenance id stamp fresh now w) in
  let w' := snd (resolveMaintenance id stamp fresh now w) in
  exists item',
    result = Some item' /\
    sound_equip_db_v1 w' = Some (replaced id item' (collection w)) /\
    find (same_id id) (collection w') = Some item' /\
    eq_status item' = available /\
    eq_logs item' = removelast (eq_logs item) ++ [set_resolvedAt stamp l] /\
    last_log item' = Some (set_resolvedAt stamp l) /\
    log_resolvedAt (set_resolvedAt stamp l) = Some stamp /\
    (log_reportedById l <> "" ->
     exists n,
       sound_equip_notifications_v1 w' = Some (n :: stored_notifications w) /\
       n_type n = "success" /\
       n_recipientUserId n = Some (log_reportedById l) /\
       n_recipientRole n = None /\
       n_read n = false) /\
    (log_reportedById l = "" ->
     sound_equip_notifications_v1 w' = sound_equip_notifications_v1 w).
Proof.
  intros Hfind Hlast. pose proof (find_same_id _ _ _ Hfind) as [Hid _].
  rewrite (resolveMaintenance_found w id stamp fresh now item Hfind).
  cbn [fst snd].
  exists (resolved stamp item).
  assert (Hlogs := resolved_logs stamp item l Hlast).
  cbn [collection sound_equip_db_v1 sound_equip_notifications_v1].
  split; [reflexivity|]. split; [reflexivity|].
  split; [now apply find_replaced with (item := item)|].
  split; [reflexivity|]. split; [exact Hlogs|].
  split; [now apply last_log_snoc with (ls := removelast (eq_logs item))|].
  split; [reflexivity|].
  unfold notifications_after_resolve, truthy. rewrite Hlast. split.
  - intros Hrid. apply String.eqb_neq in Hrid. rewrite Hrid. cbn [negb].
    exists (success_for (log_reportedById l) item fresh now).
    now repeat split.
  - intros Hrid. rewrite Hrid. reflexivity.
Qed.

Lemma resolveMaintenance_resolves_witness :
  (find (same_id "3") (collection fresh_world) = Some seed_cable /\
   exists item' n,
     fst (resolveMaintenance "3" "2023-11-01T09:00:00.000Z" "1698829200000"
            "2023-11-01T09:00:00.002Z" fresh_world) = Some item' /\
     eq_status item' = available /\
     map log_resolvedAt (eq_logs item') = [Some "2023-11-01T09:00:00.000Z"] /\
     n_recipientUserId n = Some "user-1" /\
     sound_equip_notifications_v1
       (snd (resolveMaintenance "3" "2023-11-01T09:00:00.000Z" "1698829200000"
               "2023-11-01T09:00:00.002Z" fresh_world)) = Some [n]) /\
  (find (same_id "9") (collection anonymous_world) = Some anonymous_item /\
   exists item',
     fst (resolveMaintenance "9" "2024-01-02T10:00:00.000Z" "17"
            "2024-01-02T10:00:00.001Z" anonymous_world) = Some item' /\
     eq_status item' = available /\
     map log_resolvedAt (eq_logs item') = [Some "2024-01-02T10:00:00.000Z"] /\
     sound_equip_notifications_v1
       (snd (resolveMaintenance "9" "2024-01-02T10:00:00.000Z" "17"
               "2024-01-02T10:00:00.001Z" anonymous_world)) = None).
Proof.
  split.
  - split; [reflexivity|].
    destruct (resolveMaintenance_resolves fresh_world "3"
                "2023-11-01T09:00:00.000Z" "1698829200000"
                "2023-11-01T09:00:00.002Z" seed_cable
                (mkLog "log-1" "2023-10-25" "Conector com mau contato"
                       "Usuário Padrão" "user-1" None)
                eq_refl eq_refl)
      as (item' & Hr & _ & _ & Hs & Hl & _ & _ & Hsome & _).
    destruct (Hsome ltac:(discriminate)) as (n & Hn & _ & Hu & _).
    exists item', n. split; [exact Hr|]. split; [exact Hs|].
    split; [now rewrite Hl|]. split; [exact Hu|exact Hn].
  - split; [reflexivity|].
    destruct (resolveMaintenance_resolves anonymous_world "9"
                "2024-01-02T10:00:00.000Z" "17" "2024-01-02T10:00:00.001Z"
                anonymous_item anonymous_log eq_refl eq_refl)
      as (item' & Hr & _ & _ & Hs & Hl & _ & _ & _ & Hnone).
    exists item'. split; [exact Hr|]. split; [exact Hs|].
    split; [now rewrite Hl|exact (Hnone eq_refl)].
Defined.

(** ** Upsert and delete *)

Lemma replaced_absent (id : string) (e' : Equipment) (l : list Equipment) :
  ~ In id (map eq_id l) -> replaced id e' l = l.
Proof.
  induction l as [|i r IH]; [reflexivity|]. cbn [map In replaced]. intros H.
  unfold same_id at 1. destruct (String.eqb_spec (eq_id i) id) as [E|E].
  - exfalso. apply H. now left.
  - f_equal. apply IH. intros Hin. apply H. now right.
Qed.

Lemma replaced_first (id : string) (e' item : Equipment)
  (l : list Equipment) :
  find (same_id id) l = Some item ->
  exists l1 l2,
    l = l1 ++ item :: l2 /\
    replaced id e' l = l1 ++ e' :: replaced id e' l2.
Proof.
  induction l as [|i r IH]; [discriminate|]. cbn [find replaced map].
  destruct (same_id id i) eqn:Hi.
  - intros [= ->]. now exists [], r.
  - intros Hf. destruct (IH Hf) as (l1 & l2 & -> & Hrep).
    exists (i :: l1), l2. cbn [app]. split; [reflexivity|].
    f_equal. exact Hrep.
Qed.

(** C5.  [save item] answers with the item and rewrites the equipment key
    only.  When the collection has a record with the item's id, the written
    array has the same length and, position by position, holds the item where
    the record had that id and the old record everywhere else; ids being
    unique, that is the one record in its place, with the records before and
    after it untouched.  When no record has that id, the written array is
    the old one with the item appended, one element longer. *)
Theorem save_replaces_or_appends (w : World) (equipment : Equipment) :
  let w' := snd (save equipment w) in
  fst (save equipment w) = equipment /\
  sound_equip_db_v1 w' = Some (collection w') /\
  sound_equip_notifications_v1 w' = sound_equip_notifications_v1 w /\
  (In (eq_id equipment) (map eq_id (collection w)) ->
     List.length (collection w') = List.length (collection w) /\
     forall k i, nth_error (collection w) k = Some i ->
       nth_error (collection w') k =
       Some (if String.eqb (eq_id i) (eq_id equipment) then equipment else i))
  /\
  (NoDup (map eq_id (collection w)) ->
   forall old, find (same_id (eq_id equipment)) (collection w) = Some old ->
     exists l1 l2,
       collection w = l1 ++ old :: l2 /\
       collection w' = l1 ++ equipment :: l2)
  /\
  (~ In (eq_id equipment) (map eq_id (collection w)) ->
     collection w' = collection w ++ [equipment] /\
     List.length (collection w') = S (List.length (collection w)) /\
     forall k i, nth_error (collection w) k = Some i ->
       nth_error (collection w') k = Some i).
Proof.
  cbv zeta. rewrite save_run. cbn [fst snd collection sound_equip_db_v1
                                   sound_equip_notifications_v1].
  split; [reflexivity|]. split; [reflexivity|]. split; [reflexivity|].
  split; [|split].
  - intros Hin.
    destruct (find (same_id (eq_id equipment)) (collection w)) eqn:Hf.
    + split; [apply replaced_length|]. intros k i Hk.
      rewrite replaced_nth_error, Hk. reflexivity.
    + apply find_same_id_none in Hf. contradiction.
  - intros Hnodup old Hfind. rewrite Hfind.
    destruct (replaced_first (eq_id equipment) equipment old _ Hfind)
      as (l1 & l2 & Hsplit & Hrep).
    exists l1, l2. split; [exact Hsplit|]. rewrite Hrep. do 2 f_equal.
    apply replaced_absent. rewrite Hsplit, map_app in Hnodup.
    cbn [map] in Hnodup. apply NoDup_remove_2 in Hnodup.
    apply find_same_id in Hfind. destruct Hfind as [Hid _].
    rewrite Hid in Hnodup. intros Hin. apply Hnodup.
    apply in_or_app. now right.
  - intros Hout. apply find_same_id_none in Hout. rewrite Hout.
    split; [reflexivity|]. split; [rewrite length_app; cbn; lia|].
    intros k i Hk. rewrite nth_error_app1; [exact Hk|].
    apply nth_error_Some. now rewrite Hk.
Qed.

Lemma save_replaces_or_appends_witness :
  (In "3" (map eq_id (collection fresh_world)) /\
   List.length (collection (snd (save (set_status in_use seed_cable)
                                      fresh_world))) = 4 /\
   nth_error (collection (snd (save (set_status in_use seed_cable)
                                    fresh_world))) 2 =
   Some (set_status in_use seed_cable)) /\
  (~ In "5" (map eq_id (collection fresh_world)) /\
   collection (snd (save new_item fresh_world)) = INITIAL_DATA ++ [new_item]).
Proof.
  split.
  - assert (Hpresent : In "3" (map eq_id (collection fresh_world))).
    { cbn. tauto. }
    split; [exact Hpresent|].
    destruct (save_replaces_or_appends fresh_world
                (set_status in_use seed_cable))
      as (_ & _ & _ & Hin & _ & _).
    destruct (Hin Hpresent) as [Hlen Hnth].
    split; [exact Hlen|]. exact (Hnth 2 seed_cable eq_refl).
  - assert (Hout : ~ In "5" (map eq_id (collection fresh_world))).
    { cbn. intros [H|[H|[H|[H|[]]]]]; discriminate. }
    split; [exact Hout|].
    destruct (save_replaces_or_appends fresh_world new_item)
      as (_ & _ & _ & _ & _ & Happ).
    exact (proj1 (Happ Hout)).
Defined.

(** C8, as stated, fails on an empty storage: looking up an id that no
    record has writes the seed records under the equipment key. *)
Lemma absent_id_seeds_storage_counterexample :
  find (same_id "99") (collection fresh_world) = None /\
  fst (addLog "99" sample_log "1700000000001" "2023-11-14T22:13:21.000Z"
         fresh_world) = None /\
  sound_equip_db_v1 fresh_world = None /\
  sound_equip_db_v1
    (snd (addLog "99" sample_log "1700000000001" "2023-11-14T22:13:21.000Z"
            fresh_world)) = Some INITIAL_DATA.
Proof. repeat split. Qed.

(** C8 (amended).  When no record of the collection has [id], [addLog] and
    [resolveMaintenance] answer undefined, leave the notification key and the
    seed object untouched, and leave the collection that [getAll] answers
    with as it was: no log is appended, no status changes, no notification
    is created.  The equipment key holds that collection afterwards; it is
    left exactly as it was when it had been written before, and receives the
    seed records when it had not. *)
Theorem absent_id_is_ignored (w : World) (id : string) (log : MaintenanceLog)
  (stamp fresh now : string) :
  ~ In id (map eq_id (collection w)) ->
  let added := addLog id log fresh now w in
  let solved := resolveMaintenance id stamp fresh now w in
  fst added = None /\ fst solved = None /\
  snd added = snd solved /\
  sound_equip_notifications_v1 (snd added) =
    sound_equip_notifications_v1 w /\
  seed_object (snd added) = seed_object w /\
  collection (snd added) = collection w /\
  sound_equip_db_v1 (snd added) = Some (collection w) /\
  (sound_equip_db_v1 w <> None -> snd added = w).
Proof.
  intros Habsent. apply find_same_id_none in Habsent. cbv zeta.
  rewrite (addLog_not_found w id log fresh now Habsent).
  rewrite (resolveMaintenance_not_found w id stamp fresh now Habsent).
  rewrite not_found_run. cbn [fst snd].
  repeat split.
  destruct w as [seed [stored|] notifs]; [reflexivity|].
  intros H. now contradiction H.
Qed.

Lemma absent_id_is_ignored_witness :
  ~ In "99" (map eq_id (collection (snd (getAll fresh_world)))) /\
  fst (addLog "99" sample_log "1700000000001" "2023-11-14T22:13:21.000Z"
         (snd (getAll fresh_world))) = None /\
  snd (addLog "99" sample_log "1700000000001" "2023-11-14T22:13:21.000Z"
         (snd (getAll fresh_world))) = snd (getAll fresh_world).
Proof.
  assert (Habsent :
            ~ In "99" (map eq_id (collection (snd (getAll fresh_world))))).
  { cbn. intros [H|[H|[H|[H|[]]]]]; discriminate. }
  split; [exact Habsent|].
  destruct (absent_id_is_ignored (snd (getAll fresh_world)) "99" sample_log
              "2023-11-14T22:13:20.500Z" "1700000000001"
              "2023-11-14T22:13:21.000Z" Habsent)
    as (Hr & _ & _ & _ & _ & _ & _ & Hsame).
  split; [exact Hr|]. apply Hsame. discriminate.
Defined.

(** C9, as stated, fails for an id that no record has: nothing is removed. *)
Lemma delete_absent_id_counterexample :
  sound_equip_db_v1 (snd (delete "99" seeded_world)) =
    sound_equip_db_v1 seeded_world /\
  S (List.length (collection (snd (delete "99" seeded_world)))) <>
  List.length (collection seeded_world).
Proof. split; [reflexivity|]. cbn. lia. Qed.

Lemma filter_out_absent (id : string) (l : list Equipment) :
  ~ In id (map eq_id l) ->
  filter (fun i => negb (same_id id i)) l = l.
Proof.
  induction l as [|i r IH]; [reflexivity|]. cbn [map In filter]. intros H.
  unfold same_id at 1. destruct (String.eqb_spec (eq_id i) id) as [E|E].
  - exfalso. apply H. now left.
  - cbn [negb]. f_equal. apply IH. intros Hin. apply H. now right.
Qed.

Lemma filter_out_first (id : string) (l : list Equipment) (item : Equipment) :
  find (same_id id) l = Some item ->
  exists l1 l2,
    l = l1 ++ item :: l2 /\
    ~ In id (map eq_id l1) /\
    filter (fun i => negb (same_id id i)) l =
    l1 ++ filter (fun i => negb (same_id id i)) l2.
Proof.
  induction l as [|i r IH]; [discriminate|]. cbn [find filter].
  destruct (same_id id i) eqn:Hi.
  - intros [= ->]. exists [], r. cbn. repeat split. tauto.
  - intros Hf. destruct (IH Hf) as (l1 & l2 & -> & Hno & Hfil).
    exists (i :: l1), l2. cbn [app map In negb]. repeat split.
    + intros [E|Hin]; [|contradiction].
      unfold same_id in Hi. rewrite E, String.eqb_refl in Hi. discriminate.
    + now rewrite Hfil.
Qed.

(** C9 (amended).  [delete id] rewrites the equipment key only, with the
    records of the collection whose id differs from [id], each one as it
    was and in the same relative order.  Nothing is removed when no record
    has [id]; when ids are unique and a record has [id], exactly that one
    record is removed. *)
Theorem delete_removes_matching (w : World) (id : string) :
  let w' := snd (delete id w) in
  sound_equip_db_v1 w' = Some (collection w') /\
  sound_equip_notifications_v1 w' = sound_equip_notifications_v1 w /\
  (forall e, In e (collection w') <-> In e (collection w) /\ eq_id e <> id) /\
  collection w' =
    filter (fun e => negb (String.eqb (eq_id e) id)) (collection w) /\
  (~ In id (map eq_id (collection w)) -> collection w' = collection w) /\
  (NoDup (map eq_id (collection w)) ->
   forall item, find (same_id id) (collection w) = Some item ->
     exists l1 l2,
       collection w = l1 ++ item :: l2 /\ collection w' = l1 ++ l2 /\
       S (List.length (collection w')) = List.length (collection w)).
Proof.
  cbv zeta. rewrite delete_run.
  cbn [snd collection sound_equip_db_v1 sound_equip_notifications_v1].
  split; [reflexivity|]. split; [reflexivity|]. split; [|split; [|split]].
  - intros e. rewrite filter_In. unfold same_id.
    rewrite negb_true_iff, String.eqb_neq. tauto.
  - reflexivity.
  - apply filter_out_absent.
  - intros Hnodup item Hfind.
    destruct (filter_out_first id (collection w) item Hfind)
      as (l1 & l2 & Hsplit & Hno & Hfil).
    exists l1, l2. rewrite Hfil.
    assert (Hl2 : ~ In id (map eq_id l2)).
    { rewrite Hsplit, map_app in Hnodup. cbn [map] in Hnodup.
      apply NoDup_remove_2 in Hnodup.
      apply find_same_id in Hfind. destruct Hfind as [Hid _].
      rewrite Hid in Hnodup. intros Hin. apply Hnodup.
      apply in_or_app. now right. }
    rewrite (filter_out_absent id l2 Hl2).
    split; [exact Hsplit|]. split; [reflexivity|].
    rewrite Hsplit, !length_app. cbn. lia.
Qed.

Lemma delete_removes_matching_witness :
  NoDup (map eq_id (collection fresh_world)) /\
  find (same_id "3") (collection fresh_world) = Some seed_cable /\
  map eq_id (collection (snd (delete "3" fresh_world))) = ["1"; "2"; "4"] /\
  S (List.length (collection (snd (delete "3" fresh_world)))) = 4.
Proof.
  assert (Hnodup : NoDup (map eq_id (collection fresh_world))).
  { cbn. repeat constructor; cbn; intuition discriminate. }
  split; [exact Hnodup|]. split; [reflexivity|].
  destruct (delete_removes_matching fresh_world "3")
    as (_ & _ & _ & _ & _ & Hone).
  destruct (Hone Hnodup seed_cable eq_refl) as (l1 & l2 & _ & _ & Hlen).
  split; [reflexivity|exact Hlen].
Defined.

(** ** Status and logs along runs *)

Lemma Forall_replaced (P : Equipment -> Prop) (id : string) (e' : Equipment)
  (l : list Equipment) :
  P e' -> Forall P l -> Forall P (replaced id e' l).
Proof.
  intros He Hl. unfold replaced. apply Forall_map.
  apply Forall_impl with (2 := Hl). intros a Ha.
  now destruct (same_id id a).
Qed.

Lemma Forall_filtered (P : Equipment -> Prop) (f : Equipment -> bool)
  (l : list Equipment) :
  Forall P l -> Forall P (filter f l).
Proof.
  rewrite !Forall_forall. intros H x Hx. apply filter_In in Hx. now apply H.
Qed.

Lemma reported_follows_log (log : MaintenanceLog) (item : Equipment) :
  log_resolvedAt log = None -> status_follows_log (reported log item).
Proof.
  intros Hlog. unfold status_follows_log.
  rewrite (last_log_snoc (reported log item) (eq_logs item) log eq_refl).
  now rewrite Hlog.
Qed.

Lemma resolved_follows_log (stamp : string) (item : Equipment) :
  status_follows_log (resolved stamp item).
Proof.
  unfold status_follows_log. destruct (last_log item) as [l|] eqn:Hl.
  - rewrite (last_log_snoc _ _ _ (resolved_logs stamp item l Hl)).
    reflexivity.
  - unfold last_log in *. cbn. destruct (eq_logs item); [exact I|discriminate].
Qed.

(** The three notification writers leave the equipment side alone. *)
Lemma notification_call_equipment (c : Call) (w : World) :
  match c with
  | call_createNotification _ _ _ | call_markNotificationRead _
  | call_markAllRead _ _ =>
      seed_object (after c w) = seed_object w /\
      sound_equip_db_v1 (after c w) = sound_equip_db_v1 w
  | _ => True
  end.
Proof.
  destruct c; try exact I; cbn [after];
    unfold createNotification, markNotificationRead, markAllRead, bind,
      getItem_notifications;
    destruct (sound_equip_notifications_v1 w); split; reflexivity.
Qed.

(** Every equipment method leaves the equipment key written. *)
Lemma equipment_call_writes (c : Call) (w : World) :
  match c with
  | call_createNotification _ _ _ | call_markNotificationRead _
  | call_markAllRead _ _ => True
  | _ => sound_equip_db_v1 (after c w) <> None
  end.
Proof.
  destruct c; try exact I; cbn [after].
  - now rewrite getAll_run.
  - now rewrite save_run.
  - now rewrite delete_run.
  - destruct (find (same_id id) (collection w)) as [item|] eqn:Hf.
    + now rewrite (toggleStatus_found w id newStatus item Hf).
    + rewrite (toggleStatus_not_found w id newStatus Hf). cbn [snd].
      now rewrite getAll_run.
  - destruct (find (same_id id) (collection w)) as [item|] eqn:Hf.
    + now rewrite (addLog_found w id log fresh now item Hf).
    + rewrite (addLog_not_found w id log fresh now Hf). cbn [snd].
      now rewrite getAll_run.
  - destruct (find (same_id id) (collection w)) as [item|] eqn:Hf.
    + now rewrite (resolveMaintenance_found w id stamp fresh now item Hf).
    + rewrite (resolveMaintenance_not_found w id stamp fresh now Hf).
      cbn [snd]. now rewrite getAll_run.
Qed.

(** While nothing is stored, the seed object is still the seed data. *)
Lemma seed_object_untouched (w : World) :
  reachable w -> sound_equip_db_v1 w = None -> seed_object w = INITIAL_DATA.
Proof.
  induction 1 as [|w c Hw IH _]; [reflexivity|].
  intros Hnone.
  pose proof (equipment_call_writes c w) as Hwr.
  pose proof (notification_call_equipment c w) as Hnc.
  destruct c; try contradiction;
    destruct Hnc as [Hseed Hdb]; rewrite Hseed; apply IH; congruence.
Qed.

Lemma collection_unchanged (w w' : World) :
  seed_object w' = seed_object w ->
  sound_equip_db_v1 w' = sound_equip_db_v1 w ->
  collection w' = collection w.
Proof. unfold collection. now intros -> ->. Qed.

Lemma cycle_keeps_status (w : World) :
  reachable_by cycle_call w -> Forall status_follows_log (collection w).
Proof.
  induction 1 as [|w c Hw IH Hc].
  - repeat constructor.
  - pose proof (notification_call_equipment c w) as Hnc.
    destruct c; cbn [cycle_call] in Hc; try contradiction; cbn [after] in *;
      try match type of Hnc with
          | _ /\ _ => destruct Hnc as [Hseed Hdb];
                      now rewrite (collection_unchanged _ _ Hseed Hdb)
          end.
    + now rewrite getAll_run.
    + rewrite delete_run. cbn [snd collection sound_equip_db_v1].
      now apply Forall_filtered.
    + destruct (find (same_id id) (collection w)) as [item|] eqn:Hf.
      * rewrite (addLog_found w id log fresh now item Hf).
        cbn [snd collection sound_equip_db_v1].
        apply Forall_replaced; [now apply reported_follows_log|exact IH].
      * rewrite (addLog_not_found w id log fresh now Hf). cbn [snd].
        now rewrite getAll_run.
    + destruct (find (same_id id) (collection w)) as [item|] eqn:Hf.
      * rewrite (resolveMaintenance_found w id stamp fresh now item Hf).
        cbn [snd collection sound_equip_db_v1].
        apply Forall_replaced; [apply resolved_follows_log|exact IH].
      * rewrite (resolveMaintenance_not_found w id stamp fresh now Hf).
        cbn [snd]. now rewrite getAll_run.
Qed.

(** C3, as stated, fails: after [toggleStatus "3" "available"] on the seed
    data the cable's only log is still unresolved and its status is
    "available". *)
Lemma toggled_status_counterexample :
  let w := after (call_toggleStatus "3" available) fresh_world in
  reachable w /\
  exists e l,
    In e (collection w) /\ last_log e = Some l /\
    log_resolvedAt l = None /\ eq_status e = available /\
    eq_status e <> maintenance.
Proof.
  split.
  - apply reach_call; [apply reach_fresh|exact I].
  - exists (set_status available seed_cable),
           (mkLog "log-1" "2023-10-25" "Conector com mau contato"
                  "Usuário Padrão" "user-1" None).
    repeat split; [cbn; tauto|discriminate].
Qed.

(** C3 (amended).  In every world reached from the seed data by calls other
    than [save] and [toggleStatus], where every reported log comes without a
    resolution timestamp, each item with a last log has status "maintenance"
    when that log is unresolved and "available" when it is resolved. *)
Theorem status_follows_log_in_cycle (w : World) (e : Equipment)
  (l : MaintenanceLog) :
  reachable_by cycle_call w ->
  In e (collection w) ->
  last_log e = Some l ->
  (log_resolvedAt l = None -> eq_status e = maintenance) /\
  (log_resolvedAt l <> None -> eq_status e = available).
Proof.
  intros Hw Hin Hl. pose proof (cycle_keeps_status w Hw) as Hall.
  rewrite Forall_forall in Hall. specialize (Hall e Hin).
  unfold status_follows_log in Hall. rewrite Hl in Hall.
  destruct (log_resolvedAt l); split; intros H;
    try discriminate; try contradiction; exact Hall.
Qed.

Lemma status_follows_log_in_cycle_witness :
  let w := after (call_resolveMaintenance "3" "2023-11-01T09:00:00.000Z"
                    "1698829200000" "2023-11-01T09:00:00.002Z")
             (after (call_addLog "1" sample_log "1700000000001"
                       "2023-11-14T22:13:21.000Z") fresh_world) in
  reachable_by cycle_call w /\
  In (reported sample_log seed_microphone) (collection w) /\
  eq_status (reported sample_log seed_microphone) = maintenance /\
  In (resolved "2023-11-01T09:00:00.000Z" seed_cable) (collection w) /\
  eq_status (resolved "2023-11-01T09:00:00.000Z" seed_cable) = available.
Proof.
  cbv zeta.
  assert (Hw : reachable_by cycle_call
                 (after (call_resolveMaintenance "3" "2023-11-01T09:00:00.000Z"
                           "1698829200000" "2023-11-01T09:00:00.002Z")
                    (after (call_addLog "1" sample_log "1700000000001"
                              "2023-11-14T22:13:21.000Z") fresh_world))).
  { apply reach_call; [apply reach_call; [apply reach_fresh|]|];
      reflexivity || exact I. }
  assert (Hin1 : In (reported sample_log seed_microphone)
                    (collection
                       (after (call_resolveMaintenance "3"
                                 "2023-11-01T09:00:00.000Z" "1698829200000"
                                 "2023-11-01T09:00:00.002Z")
                          (after (call_addLog "1" sample_log "1700000000001"
                                    "2023-11-14T22:13:21.000Z") fresh_world)))).
  { cbn. tauto. }
  assert (Hin2 : In (resolved "2023-11-01T09:00:00.000Z" seed_cable)
                    (collection
                       (after (call_resolveMaintenance "3"
                                 "2023-11-01T09:00:00.000Z" "1698829200000"
                                 "2023-11-01T09:00:00.002Z")
                          (after (call_addLog "1" sample_log "1700000000001"
                                    "2023-11-14T22:13:21.000Z") fresh_world)))).
  { cbn. tauto. }
  pose proof (status_follows_log_in_cycle _
                (reported sample_log seed_microphone) sample_log Hw
                Hin1 eq_refl) as [Hm _].
  pose proof (status_follows_log_in_cycle _
                (resolved "2023-11-01T09:00:00.000Z" seed_cable)
                (set_resolvedAt "2023-11-01T09:00:00.000Z"
                   (mkLog "log-1" "2023-10-25" "Conector com mau contato"
                          "Usuário Padrão" "user-1" None)) Hw
                Hin2 eq_refl) as [_ Ha].
  split; [exact Hw|]. split; [exact Hin1|]. split; [exact (Hm eq_refl)|].
  split; [exact Hin2|]. apply Ha. discriminate.
Defined.

(** ** Seeding *)

(** C6.  In a world reached from a fresh page in which no equipment data is
    stored, [getAll] answers with the four seed records and writes them
    under the equipment key; every later [getAll], with no other call in
    between, answers with the same four records and leaves the world as it
    is. *)
Theorem getAll_seeds_once (w : World) (n : nat) :
  reachable w ->
  sound_equip_db_v1 w = None ->
  let w1 := snd (getAll w) in
  let later := Nat.iter n (fun x => snd (getAll x)) w1 in
  items (fst (getAll w)) = INITIAL_DATA /\
  List.length INITIAL_DATA = 4 /\
  sound_equip_db_v1 w1 = Some INITIAL_DATA /\
  sound_equip_notifications_v1 w1 = sound_equip_notifications_v1 w /\
  later = w1 /\
  items (fst (getAll later)) = INITIAL_DATA.
Proof.
  intros Hreach Hnone. pose proof (seed_object_untouched w Hreach Hnone) as Hs.
  cbv zeta.
  assert (Hlater : Nat.iter n (fun x => snd (getAll x)) (snd (getAll w))
                   = snd (getAll w)).
  { induction n as [|n IH]; [reflexivity|]. rewrite Nat.iter_succ, IH.
    rewrite !getAll_run. reflexivity. }
  rewrite Hlater. rewrite !getAll_run. cbn [fst snd items collection
    sound_equip_db_v1 sound_equip_notifications_v1].
  unfold collection. rewrite Hnone, Hs. repeat split.
Qed.

Lemma getAll_seeds_once_witness :
  reachable fresh_world /\
  sound_equip_db_v1 fresh_world = None /\
  map eq_id (items (fst (getAll fresh_world))) = ["1"; "2"; "3"; "4"] /\
  map eq_id (items (fst (getAll (Nat.iter 3 (fun x => snd (getAll x))
                                   (snd (getAll fresh_world)))))) =
  ["1"; "2"; "3"; "4"].
Proof.
  split; [apply reach_fresh|]. split; [reflexivity|].
  destruct (getAll_seeds_once fresh_world 3 (reach_fresh _) eq_refl)
    as (Hfirst & _ & _ & _ & _ & Hlater).
  split; [now rewrite Hfirst|now rewrite Hlater].
Defined.

(** ** Resolution timestamps *)

(** C10, as stated, fails: resolving the seed cable a second time replaces
    the resolution timestamp its log received the first time. *)
Lemma resolved_again_counterexample :
  let w1 := after (call_resolveMaintenance "3" "2023-11-01T09:00:00.000Z"
                     "1698829200000" "2023-11-01T09:00:00.002Z")
              fresh_world in
  let w2 := after (call_resolveMaintenance "3" "2023-12-24T18:30:00.000Z"
                     "1703442600000" "2023-12-24T18:30:00.002Z") w1 in
  resolution_times w1 = [[]; []; [Some "2023-11-01T09:00:00.000Z"]; []] /\
  resolution_times w2 = [[]; []; [Some "2023-12-24T18:30:00.000Z"]; []] /\
  resolution_times w2 <> resolution_times w1.
Proof. repeat split. discriminate. Qed.

(** C10 (amended).  When [id] is in the collection, [toggleStatus], [addLog]
    and [resolveMaintenance] write the collection with the found item
    replaced and every record of another id left as it was, logs and
    resolution timestamps included.  The replacing item has the found item's
    logs unchanged after [toggleStatus], the same logs followed by the new
    one after [addLog], and after [resolveMaintenance] the same logs except
    that the last one carries the resolution timestamp of this call, whether
    or not it carried one before. *)
Theorem logs_after_mutation (w : World) (id : string) (item : Equipment) :
  find (same_id id) (collection w) = Some item ->
  (forall e' k e, nth_error (collection w) k = Some e -> eq_id e <> id ->
     nth_error (replaced id e' (collection w)) k = Some e) /\
  (forall s, exists item',
     collection (snd (toggleStatus id s w)) = replaced id item' (collection w)
     /\ eq_logs item' = eq_logs item) /\
  (forall log fresh now, exists item',
     collection (snd (addLog id log fresh now w)) =
       replaced id item' (collection w)
     /\ eq_logs item' = eq_logs item ++ [log]) /\
  (forall stamp fresh now, exists item',
     collection (snd (resolveMaintenance id stamp fresh now w)) =
       replaced id item' (collection w)
     /\ match last_log item with
        | None => eq_logs item = [] /\ eq_logs item' = []
        | Some l =>
            eq_logs item = removelast (eq_logs item) ++ [l] /\
            eq_logs item' =
              removelast (eq_logs item) ++ [set_resolvedAt stamp l] /\
            log_resolvedAt (set_resolvedAt stamp l) = Some stamp
        end).
Proof.
  intros Hfind. split; [|split; [|split]].
  - intros e' k e Hk Hne. rewrite replaced_nth_error, Hk. cbn [option_map].
    unfold same_id. apply String.eqb_neq in Hne. now rewrite Hne.
  - intros s. exists (set_status s item).
    now rewrite (toggleStatus_found w id s item Hfind).
  - intros log fresh now. exists (reported log item).
    now rewrite (addLog_found w id log fresh now item Hfind).
  - intros stamp fresh now. exists (resolved stamp item).
    rewrite (resolveMaintenance_found w id stamp fresh now item Hfind).
    split; [reflexivity|].
    destruct (last_log item) as [l|] eqn:Hl.
    + split; [now apply last_log_split|].
      split; [now apply resolved_logs|reflexivity].
    + unfold last_log in Hl. cbn.
      destruct (eq_logs item); [now split|discriminate].
Qed.

Lemma logs_after_mutation_witness :
  find (same_id "3") (collection fresh_world) = Some seed_cable /\
  exists item',
    collection (snd (resolveMaintenance "3" "2023-11-01T09:00:00.000Z"
                       "1698829200000" "2023-11-01T09:00:00.002Z"
                       fresh_world)) =
      replaced "3" item' (collection fresh_world) /\
    map log_resolvedAt (eq_logs item') = [Some "2023-11-01T09:00:00.000Z"].
Proof.
  split; [reflexivity|].
  destruct (logs_after_mutation fresh_world "3" seed_cable eq_refl)
    as (_ & _ & _ & Hres).
  destruct (Hres "2023-11-01T09:00:00.000Z" "1698829200000"
              "2023-11-01T09:00:00.002Z") as (item' & Hcol & Hlogs).
  exists item'. split; [exact Hcol|].
  cbn in Hlogs. destruct Hlogs as (_ & -> & _). reflexivity.
Defined.

(** ** Notifications *)

Lemma addressed_to_spec (userId : string) (role : UserRole)
  (n : AppNotification) :
  addressed_to userId role n = true <->
  n_recipientRole n = Some role \/ n_recipientUserId n = Some userId.
Proof.
  unfold addressed_to. rewrite orb_true_iff. split.
  - intros [H|H].
    + left. destruct (n_recipientRole n) as [r|]; [|discriminate].
      destruct r, role; try discriminate; reflexivity.
    + right. destruct (n_recipientUserId n) as [u|]; [|discriminate].
      apply String.eqb_eq in H. now subst.
  - intros [H|H]; rewrite H.
    + left. now destruct role.
    + right. apply String.eqb_refl.
Qed.

Section SortingFacts.

Variable getTime : string -> option Z.

Lemma sort_insert_permutation (a : AppNotification)
  (l : list AppNotification) :
  Permutation (sort_insert getTime a l) (a :: l).
Proof.
  induction l as [|b r IH]; cbn [sort_insert]; [reflexivity|].
  destruct (keeps_order getTime a b); [reflexivity|].
  rewrite IH. apply perm_swap.
Qed.

Lemma sort_permutation (l : list AppNotification) :
  Permutation (sort getTime l) l.
Proof.
  induction l as [|a r IH]; cbn [sort fold_right]; [reflexivity|].
  fold (sort getTime r). rewrite sort_insert_permutation. now constructor.
Qed.





Lemma getNotifications_run (userId : string) (role : UserRole) (w : World) :
  getNotifications getTime userId role w =
  (sort getTime (filter (addressed_to userId role) (stored_notifications w)),
   w).
Proof.
  unfold getNotifications, bind, getItem_notifications, stored_notifications.
  now destruct (sound_equip_notifications_v1 w).
Qed.

Lemma getNotifications_In (userId : string) (role : UserRole) (w : World)
  (n : AppNotification) :
  In n (fst (getNotifications getTime userId role w)) <->
  In n (stored_notifications w) /\ addressed_to userId role n = true.
Proof.
  rewrite getNotifications_run. cbn [fst]. rewrite <- filter_In.
  split; apply Permutation_in;
    [|apply Permutation_sym]; apply sort_permutation.
Qed.


(** C7.  [markAllRead userId role] rewrites the notification key only, and
    only when it was written before.  Position by position, a stored
    notification that [getNotifications userId role] would return (its
    recipient role is [role] or its recipient user id is [userId]) is
    written back with [read] true and its other fields as they were, and
    every other notification is written back as it was. *)
Theorem markAllRead_marks_addressed (w : World) (userId : string)
  (role : UserRole) :
  let w' := snd (markAllRead userId role w) in
  seed_object w' = seed_object w /\
  sound_equip_db_v1 w' = sound_equip_db_v1 w /\
  (sound_equip_notifications_v1 w = None -> w' = w) /\
  List.length (stored_notifications w') =
    List.length (stored_notifications w) /\
  (forall k n, nth_error (stored_notifications w) k = Some n ->
     (In n (fst (getNotifications getTime userId role w)) <->
      n_recipientRole n = Some role \/ n_recipientUserId n = Some userId) /\
     (In n (fst (getNotifications getTime userId role w)) ->
      nth_error (stored_notifications w') k = Some (set_read n)) /\
     (~ In n (fst (getNotifications getTime userId role w)) ->
      nth_error (stored_notifications w') k = Some n)) /\
  (forall n, n_read (set_read n) = true /\
     n_id (set_read n) = n_id n /\ n_date (set_read n) = n_date n /\
     n_message (set_read n) = n_message n /\ n_type (set_read n) = n_type n /\
     n_recipientRole (set_read n) = n_recipientRole n /\
     n_recipientUserId (set_read n) = n_recipientUserId n /\
     n_relatedEquipmentId (set_read n) = n_relatedEquipmentId n).
Proof.
  cbv zeta.
  assert (Hrun : stored_notifications (snd (markAllRead userId role w)) =
                 map (fun n => if addressed_to userId role n
                               then set_read n else n)
                     (stored_notifications w) /\
                 seed_object (snd (markAllRead userId role w)) =
                   seed_object w /\
                 sound_equip_db_v1 (snd (markAllRead userId role w)) =
                   sound_equip_db_v1 w /\
                 (sound_equip_notifications_v1 w = None ->
                  snd (markAllRead userId role w) = w)).
  { unfold markAllRead, bind, getItem_notifications, stored_notifications.
    destruct w as [seed db [stored|]]; cbn; repeat split; discriminate. }
  destruct Hrun as (Hstored & Hseed & Hdb & Hnone).
  split; [exact Hseed|]. split; [exact Hdb|]. split; [exact Hnone|].
  rewrite Hstored. split; [apply length_map|]. split.
  - intros k n Hk. pose proof (nth_error_In _ _ Hk) as Hin.
    rewrite getNotifications_In, nth_error_map, Hk. cbn [option_map].
    split; [rewrite addressed_to_spec; tauto|]. split.
    + intros [_ Haddr]. now rewrite Haddr.
    + intros Hnot. destruct (addressed_to userId role n); [|reflexivity].
      exfalso. apply Hnot. now split.
  - intros n. repeat split.
Qed.

End SortingFacts.



Lemma markAllRead_marks_addressed_witness :
  map n_read (stored_notifications notified_world) = [false; false; false] /\
  map n_read (stored_notifications
                (snd (markAllRead "admin-1" admin notified_world))) =
    [true; true; false] /\
  nth_error (stored_notifications
               (snd (markAllRead "admin-1" admin notified_world))) 2 =
    Some repaired_note.
Proof.
  split; [reflexivity|]. split; [reflexivity|].
  destruct (markAllRead_marks_addressed sample_getTime notified_world
              "admin-1" admin) as (_ & _ & _ & _ & Hpos & _).
  destruct (Hpos 2 repaired_note eq_refl) as (Hiff & _ & Hkeep).
  apply Hkeep. intros Hin. apply Hiff in Hin.
  destruct Hin as [Hin|Hin]; discriminate.
Defined.

(** ** Further properties of the equipment methods *)

Lemma collection_getAll (w : World) :
  collection (snd (getAll w)) = collection w.
Proof. now rewrite getAll_run. Qed.

Lemma replaced_ids (id : string) (e' : Equipment) (l : list Equipment) :
  eq_id e' = id -> map eq_id (replaced id e' l) = map eq_id l.
Proof.
  intros Hid. unfold replaced. rewrite map_map. apply map_ext. intros i.
  unfold same_id. destruct (String.eqb_spec (eq_id i) id) as [E|E];
    [congruence|reflexivity].
Qed.

Lemma replaced_twice (id : string) (e1 e2 : Equipment) (l : list Equipment) :
  eq_id e1 = id ->
  replaced id e2 (replaced id e1 l) = replaced id e2 l.
Proof.
  intros Hid. unfold replaced. rewrite map_map. apply map_ext. intros i.
  destruct (same_id id i) eqn:Hi; [|now rewrite Hi].
  unfold same_id. now rewrite Hid, String.eqb_refl.
Qed.

Lemma find_appended (id : string) (e : Equipment) (l : list Equipment) :
  find (same_id id) l = None -> eq_id e = id ->
  find (same_id id) (l ++ [e]) = Some e.
Proof.
  intros Hnone Hid. induction l as [|i r IH]; cbn in *.
  - unfold same_id. now rewrite Hid, String.eqb_refl.
  - destruct (same_id id i); [discriminate|]. now apply IH.
Qed.

Lemma find_filtered_out (id : string) (l : list Equipment) :
  find (same_id id) (filter (fun i => negb (same_id id i)) l) = None.
Proof.
  induction l as [|i r IH]; [reflexivity|]. cbn [filter].
  destruct (same_id id i) eqn:Hi; cbn [negb]; [exact IH|].
  cbn [find]. now rewrite Hi.
Qed.

(** X1.  When [id] is in the collection, [toggleStatus id s] answers with the
    found item in which only the status changed, to [s]; the stored
    collection holds that item under [id], has as many records as before,
    and every record of another id is where and what it was; the
    notification key is not touched. *)
Theorem toggleStatus_sets_status (w : World) (id : string)
  (s : EquipmentStatus) (item : Equipment) :
  find (same_id id) (collection w) = Some item ->
  let w' := snd (toggleStatus id s w) in
  fst (toggleStatus id s w) =
    Some (mkEquipment (eq_id item) (eq_name item) (eq_brand item)
            (eq_category item) s (eq_purchaseDate item) (eq_logs item)) /\
  find (same_id id) (collection w') = fst (toggleStatus id s w) /\
  List.length (collection w') = List.length (collection w) /\
  (forall k e, nth_error (collection w) k = Some e -> eq_id e <> id ->
     nth_error (collection w') k = Some e) /\
  sound_equip_notifications_v1 w' = sound_equip_notifications_v1 w.
Proof.
  intros Hfind. pose proof (find_same_id _ _ _ Hfind) as [Hid _]. cbv zeta.
  rewrite (toggleStatus_found w id s item Hfind).
  cbn [fst snd collection sound_equip_db_v1 sound_equip_notifications_v1].
  split; [reflexivity|]. split.
  { now apply find_replaced with (item := item). }
  split; [apply replaced_length|]. split; [|reflexivity].
  intros k e Hk Hne. rewrite replaced_nth_error, Hk. cbn [option_map].
  unfold same_id. apply String.eqb_neq in Hne. now rewrite Hne.
Qed.

Lemma toggleStatus_sets_status_witness :
  find (same_id "2") (collection fresh_world) =
    Some (mkEquipment "2" "Behringer X32" "Behringer" "Mesas de Som" in_use
            "2022-05-20" []) /\
  option_map eq_status (fst (toggleStatus "2" available fresh_world)) =
    Some available /\
  List.length (collection (snd (toggleStatus "2" available fresh_world))) = 4.
Proof.
  split; [reflexivity|].
  destruct (toggleStatus_sets_status fresh_world "2" available _ eq_refl)
    as (Hr & _ & Hlen & _).
  split; [now rewrite Hr|exact Hlen].
Defined.

Lemma toggleStatus_ids (w : World) (id : string) (s : EquipmentStatus) :
  map eq_id (collection (snd (toggleStatus id s w))) =
  map eq_id (collection w).
Proof.
  destruct (find (same_id id) (collection w)) as [item|] eqn:Hfind.
  - pose proof (find_same_id _ _ _ Hfind) as [Hid _].
    rewrite (toggleStatus_found w id s item Hfind).
    cbn [snd collection sound_equip_db_v1]. now apply replaced_ids.
  - rewrite (toggleStatus_not_found w id s Hfind). cbn [snd].
    now rewrite collection_getAll.
Qed.

Lemma addLog_ids (w : World) (id : string) (log : MaintenanceLog)
  (fresh now : string) :
  map eq_id (collection (snd (addLog id log fresh now w))) =
  map eq_id (collection w).
Proof.
  destruct (find (same_id id) (collection w)) as [item|] eqn:Hfind.
  - pose proof (find_same_id _ _ _ Hfind) as [Hid _].
    rewrite (addLog_found w id log fresh now item Hfind).
    cbn [snd collection sound_equip_db_v1]. now apply replaced_ids.
  - rewrite (addLog_not_found w id log fresh now Hfind). cbn [snd].
    now rewrite collection_getAll.
Qed.

Lemma resolveMaintenance_ids (w : World) (id : string)
  (stamp fresh now : string) :
  map eq_id (collection (snd (resolveMaintenance id stamp fresh now w))) =
  map eq_id (collection w).
Proof.
  destruct (find (same_id id) (collection w)) as [item|] eqn:Hfind.
  - pose proof (find_same_id _ _ _ Hfind) as [Hid _].
    rewrite (resolveMaintenance_found w id stamp fresh now item Hfind).
    cbn [snd collection sound_equip_db_v1]. now apply replaced_ids.
  - rewrite (resolveMaintenance_not_found w id stamp fresh now Hfind).
    cbn [snd]. now rewrite collection_getAll.
Qed.

(** X2.  [toggleStatus], [addLog] and [resolveMaintenance] never add, remove
    or reorder records: whether or not [id] is found, the ids of the
    collection are the same list afterwards. *)
Theorem mutators_keep_ids (w : World) (id : string) (s : EquipmentStatus)
  (log : MaintenanceLog) (stamp fresh now : string) :
  map eq_id (collection (snd (toggleStatus id s w))) =
    map eq_id (collection w) /\
  map eq_id (collection (snd (addLog id log fresh now w))) =
    map eq_id (collection w) /\
  map eq_id (collection (snd (resolveMaintenance id stamp fresh now w))) =
    map eq_id (collection w).
Proof.
  split; [apply toggleStatus_ids|].
  split; [apply addLog_ids|apply resolveMaintenance_ids].
Qed.

Lemma call_keeps_unique_ids (c : Call) (w : World) :
  NoDup (map eq_id (collection w)) ->
  NoDup (map eq_id (collection (after c w))).
Proof.
  intros Hnd. pose proof (notification_call_equipment c w) as Hnc.
  destruct c; cbn [after] in *;
    try match type of Hnc with
        | _ /\ _ => destruct Hnc as [Hseed Hdb];
                    now rewrite (collection_unchanged _ _ Hseed Hdb)
        end.
  - now rewrite collection_getAll.
  - rewrite save_run. cbn [snd collection sound_equip_db_v1].
    destruct (find (same_id (eq_id equipment)) (collection w)) eqn:Hf.
    + now rewrite replaced_ids.
    + apply find_same_id_none in Hf. rewrite map_app. cbn [map].
      apply (Permutation_NoDup (Permutation_cons_append _ _)).
      now constructor.
  - rewrite delete_run. cbn [snd collection sound_equip_db_v1].
    induction (collection w) as [|i r IH]; [constructor|].
    cbn [map] in Hnd. inversion Hnd as [|? ? Hni Hr]; subst.
    cbn [filter]. destruct (negb (same_id id i)); [|now apply IH].
    cbn [map]. constructor; [|now apply IH].
    intros Hin. apply Hni. apply in_map_iff in Hin.
    destruct Hin as [e [He Hin]]. apply filter_In in Hin.
    apply in_map_iff. exists e. tauto.
  - now rewrite toggleStatus_ids.
  - now rewrite addLog_ids.
  - now rewrite resolveMaintenance_ids.
Qed.

(** X3.  Ids stay unique: in every world reached from a fresh page by any
    calls of the service, no two records of the collection have the same
    id. *)
Theorem reachable_ids_unique (w : World) :
  reachable w -> NoDup (map eq_id (collection w)).
Proof.
  induction 1 as [|w c Hw IH _].
  - cbn. repeat constructor; cbn; intuition discriminate.
  - now apply call_keeps_unique_ids.
Qed.

Lemma reachable_ids_unique_witness :
  NoDup (map eq_id
           (collection (after (call_save new_item)
                          (after (call_delete "2") fresh_world)))) /\
  map eq_id (collection (after (call_save new_item)
                           (after (call_delete "2") fresh_world))) =
    ["1"; "3"; "4"; "5"].
Proof.
  split; [|reflexivity].
  apply reachable_ids_unique.
  apply reach_call; [apply reach_call; [apply reach_fresh|exact I]|exact I].
Defined.

Lemma find_after_save (e : Equipment) (w : World) :
  find (same_id (eq_id e)) (collection (snd (save e w))) = Some e.
Proof.
  rewrite save_run. cbn [snd collection sound_equip_db_v1].
  destruct (find (same_id (eq_id e)) (collection w)) as [old|] eqn:Hf.
  - now apply find_replaced with (item := old).
  - now apply find_appended.
Qed.

(** X4.  What [save] stores can be found again: after [save item] the
    collection holds [item] itself under its id: whatever was stored under
    that id before is gone; and saving the same item a second time changes
    nothing. *)
Theorem save_then_find (w : World) (equipment : Equipment) :
  let w' := snd (save equipment w) in
  find (same_id (eq_id equipment)) (collection w') = Some equipment /\
  (forall e, In e (collection w') -> eq_id e = eq_id equipment ->
             e = equipment) /\
  snd (save equipment w') = w'.
Proof.
  cbv zeta. split; [apply find_after_save|]. split.
  - rewrite save_run. cbn [snd collection sound_equip_db_v1].
    intros e Hin He.
    destruct (find (same_id (eq_id equipment)) (collection w)) eqn:Hf.
    + apply In_replaced in Hin. destruct Hin as [[-> _]|[_ Hne]];
        [reflexivity|contradiction].
    + apply in_app_or in Hin. destruct Hin as [Hin|[<-|[]]]; [|reflexivity].
      apply find_same_id_none in Hf. exfalso. apply Hf.
      apply in_map_iff. now exists e.
  - rewrite (save_run equipment (snd (save equipment w))).
    rewrite find_after_save. rewrite save_run.
    cbn [snd collection sound_equip_db_v1 seed_object
         sound_equip_notifications_v1].
    do 2 f_equal.
    destruct (find (same_id (eq_id equipment)) (collection w)) eqn:Hf.
    + now apply replaced_twice.
    + apply find_same_id_none in Hf. unfold replaced. rewrite map_app.
      fold (replaced (eq_id equipment) equipment (collection w)).
      rewrite (replaced_absent _ _ _ Hf). cbn [map]. unfold same_id.
      now rewrite String.eqb_refl.
Qed.

(** X5.  Saving an item under an id no record has and deleting that id
    again gives back the collection as it was. *)
Theorem save_then_delete (w : World) (equipment : Equipment) :
  ~ In (eq_id equipment) (map eq_id (collection w)) ->
  collection (snd (delete (eq_id equipment) (snd (save equipment w)))) =
  collection w.
Proof.
  intros Hout. rewrite delete_run, save_run.
  cbn [snd collection sound_equip_db_v1].
  pose proof Hout as Hnone. apply find_same_id_none in Hnone. rewrite Hnone.
  rewrite filter_app, (filter_out_absent _ _ Hout). cbn [filter].
  unfold same_id. rewrite String.eqb_refl. cbn [negb]. apply app_nil_r.
Qed.

Lemma save_then_delete_witness :
  ~ In "5" (map eq_id (collection fresh_world)) /\
  collection (snd (delete "5" (snd (save new_item fresh_world)))) =
  INITIAL_DATA.
Proof.
  assert (Hout : ~ In (eq_id new_item) (map eq_id (collection fresh_world))).
  { cbn. intros [H|[H|[H|[H|[]]]]]; discriminate. }
  split; [exact Hout|]. exact (save_then_delete fresh_world new_item Hout).
Defined.

(** X6.  After [delete id] no record has [id]: [toggleStatus], [addLog] and
    [resolveMaintenance] on that id answer undefined and create no
    notification, and a second [delete id] changes nothing. *)
Theorem delete_then_absent (w : World) (id : string) (s : EquipmentStatus)
  (log : MaintenanceLog) (stamp fresh now : string) :
  let w' := snd (delete id w) in
  ~ In id (map eq_id (collection w')) /\
  toggleStatus id s w' = (None, w') /\
  addLog id log fresh now w' = (None, w') /\
  resolveMaintenance id stamp fresh now w' = (None, w') /\
  snd (delete id w') = w'.
Proof.
  cbv zeta.
  assert (Hnone : find (same_id id) (collection (snd (delete id w))) = None).
  { rewrite delete_run. cbn [snd collection sound_equip_db_v1].
    apply find_filtered_out. }
  assert (Hget : snd (getAll (snd (delete id w))) = snd (delete id w)).
  { rewrite getAll_run, delete_run. reflexivity. }
  split; [now apply find_same_id_none|].
  rewrite (toggleStatus_not_found _ id s Hnone),
    (addLog_not_found _ id log fresh now Hnone),
    (resolveMaintenance_not_found _ id stamp fresh now Hnone), Hget.
  repeat split.
  rewrite (delete_run id (snd (delete id w))). rewrite delete_run.
  cbn [snd collection sound_equip_db_v1 seed_object
       sound_equip_notifications_v1].
  do 2 f_equal. apply filter_out_absent.
  rewrite delete_run in Hnone. cbn [snd collection sound_equip_db_v1] in Hnone.
  now apply find_same_id_none.
Qed.

Lemma after_depends_on_collection (c : Call) (w1 w2 : World) :
  collection w1 = collection w2 ->
  sound_equip_notifications_v1 w1 = sound_equip_notifications_v1 w2 ->
  collection (after c w1) = collection (after c w2) /\
  sound_equip_notifications_v1 (after c w1) =
    sound_equip_notifications_v1 (after c w2).
Proof.
  intros Hc Hn.
  assert (Hs : stored_notifications w1 = stored_notifications w2).
  { unfold stored_notifications. now rewrite Hn. }
  pose proof (notification_call_equipment c w1) as Hnc1.
  pose proof (notification_call_equipment c w2) as Hnc2.
  destruct c; cbn [after] in *.
  - rewrite !getAll_run. cbn. now rewrite Hc, Hn.
  - rewrite !save_run. cbn. now rewrite Hc, Hn.
  - rewrite !delete_run. cbn. now rewrite Hc, Hn.
  - destruct (find (same_id id) (collection w2)) as [item|] eqn:Hf.
    + rewrite (toggleStatus_found w2 id newStatus item Hf).
      rewrite <- Hc in Hf. rewrite (toggleStatus_found w1 id newStatus item Hf).
      cbn. now rewrite Hc, Hn.
    + rewrite (toggleStatus_not_found w2 id newStatus Hf).
      rewrite <- Hc in Hf. rewrite (toggleStatus_not_found w1 id newStatus Hf).
      rewrite !getAll_run. cbn. now rewrite Hc, Hn.
  - destruct (find (same_id id) (collection w2)) as [item|] eqn:Hf.
    + rewrite (addLog_found w2 id log fresh now item Hf).
      rewrite <- Hc in Hf. rewrite (addLog_found w1 id log fresh now item Hf).
      cbn. now rewrite Hc, Hs.
    + rewrite (addLog_not_found w2 id log fresh now Hf).
      rewrite <- Hc in Hf. rewrite (addLog_not_found w1 id log fresh now Hf).
      rewrite !getAll_run. cbn. now rewrite Hc, Hn.
  - destruct (find (same_id id) (collection w2)) as [item|] eqn:Hf.
    + rewrite (resolveMaintenance_found w2 id stamp fresh now item Hf).
      rewrite <- Hc in Hf.
      rewrite (resolveMaintenance_found w1 id stamp fresh now item Hf).
      cbn. unfold notifications_after_resolve. now rewrite Hc, Hs, Hn.
    + rewrite (resolveMaintenance_not_found w2 id stamp fresh now Hf).
      rewrite <- Hc in Hf.
      rewrite (resolveMaintenance_not_found w1 id stamp fresh now Hf).
      rewrite !getAll_run. cbn. now rewrite Hc, Hn.
  - destruct Hnc1 as [Hs1 Hd1], Hnc2 as [Hs2 Hd2].
    rewrite (collection_unchanged _ _ Hs1 Hd1),
      (collection_unchanged _ _ Hs2 Hd2).
    split; [exact Hc|]. unfold createNotification, bind, getItem_notifications.
    cbn. now rewrite Hn.
  - destruct Hnc1 as [Hs1 Hd1], Hnc2 as [Hs2 Hd2].
    rewrite (collection_unchanged _ _ Hs1 Hd1),
      (collection_unchanged _ _ Hs2 Hd2).
    split; [exact Hc|].
    unfold markNotificationRead, bind, getItem_notifications.
    rewrite Hn. destruct (sound_equip_notifications_v1 w2) eqn:E; cbn;
      congruence.
  - destruct Hnc1 as [Hs1 Hd1], Hnc2 as [Hs2 Hd2].
    rewrite (collection_unchanged _ _ Hs1 Hd1),
      (collection_unchanged _ _ Hs2 Hd2).
    split; [exact Hc|]. unfold markAllRead, bind, getItem_notifications.
    rewrite Hn. destruct (sound_equip_notifications_v1 w2) eqn:E; cbn;
      congruence.
Qed.

(** X7.  The stored data never depends on the state of the [INITIAL_DATA]
    object in memory or on whether the seed was already written: two worlds
    that answer [getAll] with the same collection and hold the same
    notifications still do so after any sequence of calls.  In particular
    the in-place changes [toggleStatus], [addLog] and [resolveMaintenance]
    make to [INITIAL_DATA] on an empty storage never reach later results. *)
Theorem runs_depend_on_stored_data (calls : list Call) (w1 w2 : World) :
  collection w1 = collection w2 ->
  sound_equip_notifications_v1 w1 = sound_equip_notifications_v1 w2 ->
  collection (fold_left (fun w c => after c w) calls w1) =
    collection (fold_left (fun w c => after c w) calls w2) /\
  sound_equip_notifications_v1 (fold_left (fun w c => after c w) calls w1) =
    sound_equip_notifications_v1 (fold_left (fun w c => after c w) calls w2).
Proof.
  revert w1 w2. induction calls as [|c cs IH]; intros w1 w2 Hc Hn.
  - now split.
  - cbn [fold_left].
    destruct (after_depends_on_collection c w1 w2 Hc Hn) as [Hc' Hn'].
    now apply IH.
Qed.

Lemma runs_depend_on_stored_data_witness :
  seed_object (after (call_toggleStatus "1" in_use) fresh_world) <>
    seed_object seeded_world /\
  collection
    (fold_left (fun w c => after c w)
       [call_addLog "1" sample_log "1700000000001" "2023-11-14T22:13:21.000Z";
        call_delete "2"]
       (after (call_toggleStatus "1" in_use) fresh_world)) =
  collection
    (fold_left (fun w c => after c w)
       [call_addLog "1" sample_log "1700000000001" "2023-11-14T22:13:21.000Z";
        call_delete "2"]
       (after (call_toggleStatus "1" in_use) seeded_world)).
Proof.
  split; [discriminate|].
  apply runs_depend_on_stored_data; reflexivity.
Defined.

(** X8.  Resolving an item that has no log: when [id] is in the collection
    and the found item's logs are empty, [resolveMaintenance id] answers
    with the item with status "available" and still no log, and creates no
    notification: the notification key is left as it was. *)
Theorem resolveMaintenance_without_logs (w : World) (id : string)
  (stamp fresh now : string) (item : Equipment) :
  find (same_id id) (collection w) = Some item ->
  eq_logs item = [] ->
  let w' := snd (resolveMaintenance id stamp fresh now w) in
  fst (resolveMaintenance id stamp fresh now w) =
    Some (set_status available item) /\
  find (same_id id) (collection w') = Some (set_status available item) /\
  sound_equip_notifications_v1 w' = sound_equip_notifications_v1 w.
Proof.
  intros Hfind Hlogs. pose proof (find_same_id _ _ _ Hfind) as [Hid _].
  cbv zeta. rewrite (resolveMaintenance_found w id stamp fresh now item Hfind).
  cbn [fst snd collection sound_equip_db_v1 sound_equip_notifications_v1].
  assert (Hres : resolved stamp item = set_status available item).
  { unfold resolved, set_logs, set_status. cbn. now rewrite Hlogs. }
  rewrite Hres. split; [reflexivity|]. split.
  - now apply find_replaced with (item := item).
  - unfold notifications_after_resolve, last_log. now rewrite Hlogs.
Qed.

Lemma resolveMaintenance_without_logs_witness :
  find (same_id "2") (collection fresh_world) =
    Some (mkEquipment "2" "Behringer X32" "Behringer" "Mesas de Som" in_use
            "2022-05-20" []) /\
  option_map eq_status
    (fst (resolveMaintenance "2" "2023-11-01T09:00:00.000Z" "1698829200000"
            "2023-11-01T09:00:00.002Z" fresh_world)) = Some available /\
  sound_equip_notifications_v1
    (snd (resolveMaintenance "2" "2023-11-01T09:00:00.000Z" "1698829200000"
            "2023-11-01T09:00:00.002Z" fresh_world)) = None.
Proof.
  split; [reflexivity|].
  destruct (resolveMaintenance_without_logs fresh_world "2"
              "2023-11-01T09:00:00.000Z" "1698829200000"
              "2023-11-01T09:00:00.002Z" _ eq_refl eq_refl)
    as (Hr & _ & Hn).
  split; [now rewrite Hr|exact Hn].
Defined.

(** X9.  Report, then resolve.  When [id] is in the collection and the
    reported log has a non-empty reporter id, [addLog id log] followed by
    [resolveMaintenance id] leaves the item with status "available" and with
    its earlier logs as they were, followed by [log] stamped with the
    resolution time; the notifications are the earlier ones under an
    "alert" for the admins and, on top, a "success" for the reporter. *)
Theorem report_then_resolve (w : World) (id : string) (log : MaintenanceLog)
  (fresh1 now1 stamp fresh2 now2 : string) (item : Equipment) :
  find (same_id id) (collection w) = Some item ->
  log_reportedById log <> "" ->
  let w1 := snd (addLog id log fresh1 now1 w) in
  let w2 := snd (resolveMaintenance id stamp fresh2 now2 w1) in
  exists item2 done alert,
    fst (resolveMaintenance id stamp fresh2 now2 w1) = Some item2 /\
    find (same_id id) (collection w2) = Some item2 /\
    eq_status item2 = available /\
    eq_logs item2 = eq_logs item ++ [set_resolvedAt stamp log] /\
    sound_equip_notifications_v1 w2 =
      Some (done :: alert :: stored_notifications w) /\
    n_type done = "success" /\
    n_recipientUserId done = Some (log_reportedById log) /\
    n_recipientRole done = None /\
    n_type alert = "alert" /\
    n_recipientRole alert = Some admin /\
    n_recipientUserId alert = None.
Proof.
  intros Hfind Hrid. pose proof (find_same_id _ _ _ Hfind) as [Hid _].
  cbv zeta. rewrite (addLog_found w id log fresh1 now1 item Hfind).
  cbn [snd].
  set (w1 := mkWorld _ _ _).
  assert (Hfind1 : find (same_id id) (collection w1) =
                   Some (reported log item)).
  { subst w1. cbn [collection sound_equip_db_v1].
    now apply find_replaced with (item := item). }
  rewrite (resolveMaintenance_found w1 id stamp fresh2 now2 _ Hfind1).
  cbn [fst snd collection sound_equip_db_v1 sound_equip_notifications_v1].
  assert (Hlast : last_log (reported log item) = Some log).
  { now apply last_log_snoc with (ls := eq_logs item). }
  exists (resolved stamp (reported log item)),
         (success_for (log_reportedById log) (resolved stamp (reported log item))
                      fresh2 now2),
         (alert_for log item fresh1 now1).
  split; [reflexivity|]. split.
  { apply find_replaced with (item := reported log item); [exact Hfind1|].
    exact Hid. }
  split; [reflexivity|]. split.
  { cbn. apply stamp_last_snoc. }
  split; [|now repeat split].
  unfold notifications_after_resolve. rewrite Hlast.
  unfold truthy. apply String.eqb_neq in Hrid. rewrite Hrid. reflexivity.
Qed.

Lemma report_then_resolve_witness :
  find (same_id "1") (collection fresh_world) = Some seed_microphone /\
  map eq_status
    (collection
       (snd (resolveMaintenance "1" "2023-11-20T10:00:00.000Z" "1700474400000"
               "2023-11-20T10:00:00.002Z"
               (snd (addLog "1" sample_log "1700000000001"
                       "2023-11-14T22:13:21.000Z" fresh_world))))) =
    [available; in_use; maintenance; available] /\
  exists item2,
    fst (resolveMaintenance "1" "2023-11-20T10:00:00.000Z" "1700474400000"
           "2023-11-20T10:00:00.002Z"
           (snd (addLog "1" sample_log "1700000000001"
                   "2023-11-14T22:13:21.000Z" fresh_world))) = Some item2 /\
    map log_resolvedAt (eq_logs item2) = [Some "2023-11-20T10:00:00.000Z"].
Proof.
  split; [reflexivity|]. split; [reflexivity|].
  destruct (report_then_resolve fresh_world "1" sample_log "1700000000001"
              "2023-11-14T22:13:21.000Z" "2023-11-20T10:00:00.000Z"
              "1700474400000" "2023-11-20T10:00:00.002Z" seed_microphone
              eq_refl ltac:(discriminate))
    as (item2 & d & a & Hr & _ & _ & Hl & _).
  exists item2. split; [exact Hr|]. now rewrite Hl.
Defined.

(** ** Further properties of the notification methods *)

Lemma createNotification_run (fresh now : string) (data : NotificationData)
  (w : World) :
  createNotification fresh now data w =
  (tt, mkWorld (seed_object w) (sound_equip_db_v1 w)
         (Some (created fresh now data :: stored_notifications w))).
Proof.
  unfold createNotification, bind, getItem_notifications,
    stored_notifications.
  now destruct (sound_equip_notifications_v1 w).
Qed.

Lemma markNotificationRead_stored (nid : string) (w : World) :
  stored_notifications (snd (markNotificationRead nid w)) =
  marked nid (stored_notifications w).
Proof.
  destruct w as [seed db [l|]]; reflexivity.
Qed.

Lemma markAllRead_stored (userId : string) (role : UserRole) (w : World) :
  stored_notifications (snd (markAllRead userId role w)) =
  map (fun n => if addressed_to userId role n then set_read n else n)
      (stored_notifications w).
Proof.
  destruct w as [seed db [l|]]; reflexivity.
Qed.

Lemma filter_map_commute (p : AppNotification -> bool)
  (f : AppNotification -> AppNotification) (l : list AppNotification) :
  (forall n, p (f n) = p n) ->
  filter p (map f l) = map f (filter p l).
Proof.
  intros Hp. induction l as [|a r IH]; [reflexivity|].
  cbn [map filter]. rewrite Hp. destruct (p a); cbn [map]; now rewrite IH.
Qed.

Section ListingFacts.

Variable getTime : string -> option Z.

Lemma sort_insert_map (f : AppNotification -> AppNotification)
  (a : AppNotification) (l : list AppNotification) :
  (forall n, n_date (f n) = n_date n) ->
  sort_insert getTime (f a) (map f l) = map f (sort_insert getTime a l).
Proof.
  intros Hd. induction l as [|b r IH]; [reflexivity|].
  cbn [map sort_insert].
  assert (Hk : keeps_order getTime (f a) (f b) = keeps_order getTime a b).
  { unfold keeps_order, compareFn. now rewrite !Hd. }
  rewrite Hk. destruct (keeps_order getTime a b); cbn [map];
    [reflexivity|now rewrite IH].
Qed.

Lemma sort_map (f : AppNotification -> AppNotification)
  (l : list AppNotification) :
  (forall n, n_date (f n) = n_date n) ->
  sort getTime (map f l) = map f (sort getTime l).
Proof.
  intros Hd. induction l as [|a r IH]; [reflexivity|].
  cbn [map sort fold_right]. fold (sort getTime (map f r)).
  fold (sort getTime r). rewrite IH. now apply sort_insert_map.
Qed.

(** Listing after a rewrite of the stored notifications that keeps dates
    and recipients is the rewrite of the listing. *)
Lemma listing_map (f : AppNotification -> AppNotification)
  (userId : string) (role : UserRole) (l : list AppNotification) :
  (forall n, n_date (f n) = n_date n) ->
  (forall n, addressed_to userId role (f n) = addressed_to userId role n) ->
  sort getTime (filter (addressed_to userId role) (map f l)) =
  map f (sort getTime (filter (addressed_to userId role) l)).
Proof.
  intros Hd Ha. rewrite filter_map_commute by exact Ha. now apply sort_map.
Qed.

Lemma getNotifications_stored (userId : string) (role : UserRole)
  (w : World) :
  fst (getNotifications getTime userId role w) =
  sort getTime (filter (addressed_to userId role) (stored_notifications w)).
Proof. now rewrite getNotifications_run. Qed.

(** X10.  Create, then list.  [createNotification] puts the new unread
    notification in front of the stored ones, which stay as they were, and
    does not touch the equipment data.  A following [getNotifications
    userId role] answers with what it answered before, plus the new
    notification exactly when the data name [role] as recipient role or
    [userId] as recipient user id. *)
Theorem createNotification_then_list (w : World) (fresh now : string)
  (data : NotificationData) (userId : string) (role : UserRole) :
  let w' := snd (createNotification fresh now data w) in
  let before := fst (getNotifications getTime userId role w) in
  let listed := fst (getNotifications getTime userId role w') in
  let shown := d_recipientRole data = Some role \/
               d_recipientUserId data = Some userId in
  sound_equip_notifications_v1 w' =
    Some (created fresh now data :: stored_notifications w) /\
  seed_object w' = seed_object w /\
  sound_equip_db_v1 w' = sound_equip_db_v1 w /\
  (forall n, In n listed <->
             (n = created fresh now data /\ shown) \/ In n before) /\
  (shown -> List.length listed = S (List.length before)) /\
  (~ shown -> listed = before).
Proof.
  cbv zeta.
  assert (Hlisted :
            fst (getNotifications getTime userId role
                   (snd (createNotification fresh now data w))) =
            if addressed_to userId role (created fresh now data)
            then sort_insert getTime (created fresh now data)
                   (fst (getNotifications getTime userId role w))
            else fst (getNotifications getTime userId role w)).
  { rewrite !getNotifications_stored, createNotification_run.
    unfold stored_notifications at 1. cbn [snd sound_equip_notifications_v1].
    cbn [filter].
    now destruct (addressed_to userId role (created fresh now data)). }
  rewrite Hlisted. rewrite createNotification_run. cbn [snd seed_object
    sound_equip_db_v1 sound_equip_notifications_v1].
  split; [reflexivity|]. split; [reflexivity|]. split; [reflexivity|].
  pose proof (addressed_to_spec userId role (created fresh now data)) as Hsp.
  cbn [created n_recipientRole n_recipientUserId] in Hsp.
  pose proof (sort_insert_permutation getTime (created fresh now data)
                (fst (getNotifications getTime userId role w))) as Hperm.
  destruct (addressed_to userId role (created fresh now data)).
  - assert (Hshown : d_recipientRole data = Some role \/
                     d_recipientUserId data = Some userId)
      by now apply Hsp.
    split; [|split].
    + intros n. split.
      * intros Hin. apply (Permutation_in _ Hperm) in Hin.
        destruct Hin as [<-|Hin]; [left; now split|now right].
      * intros [[-> _]|Hin];
          apply (Permutation_in _ (Permutation_sym Hperm));
          [now left|now right].
    + intros _. now rewrite (Permutation_length Hperm).
    + intros Hno. contradiction.
  - assert (Hno : ~ (d_recipientRole data = Some role \/
                     d_recipientUserId data = Some userId)).
    { intros H. apply Hsp in H. discriminate. }
    split; [|split].
    + intros n. split; [now right|]. intros [[_ H]|H]; [contradiction|exact H].
    + intros H. contradiction.
    + reflexivity.
Qed.

(** X11.  [markNotificationRead id] does not touch the equipment data.
    Position by position it writes back a stored notification with [read]
    true when its id is [id] and as it was otherwise; when nothing is
    stored, or no stored notification has that id, the world is unchanged;
    a second call changes nothing; and a following [getNotifications]
    answers with its previous answer, in the same order, with [read] set on
    the notifications of that id. *)
Theorem markNotificationRead_marks (w : World) (id : string)
  (userId : string) (role : UserRole) :
  let w' := snd (markNotificationRead id w) in
  seed_object w' = seed_object w /\
  sound_equip_db_v1 w' = sound_equip_db_v1 w /\
  (forall k n, nth_error (stored_notifications w) k = Some n ->
     nth_error (stored_notifications w') k =
     Some (if String.eqb (n_id n) id then set_read n else n)) /\
  (sound_equip_notifications_v1 w = None -> w' = w) /\
  (~ In id (map n_id (stored_notifications w)) -> w' = w) /\
  snd (markNotificationRead id w') = w' /\
  fst (getNotifications getTime userId role w') =
    map (fun n => if String.eqb (n_id n) id then set_read n else n)
        (fst (getNotifications getTime userId role w)).
Proof.
  cbv zeta.
  assert (Hmarked_absent : forall l, ~ In id (map n_id l) -> marked id l = l).
  { induction l as [|a r IH]; [reflexivity|]. cbn [map In marked]. intros H.
    destruct (String.eqb_spec (n_id a) id) as [E|E];
      [exfalso; apply H; now left|].
    f_equal. apply IH. intros Hin. apply H. now right. }
  assert (Hmarked_twice : forall l, marked id (marked id l) = marked id l).
  { intros l. unfold marked. rewrite map_map. apply map_ext. intros n.
    destruct (String.eqb (n_id n) id) eqn:E; [|now rewrite E].
    cbn [set_read n_id]. now rewrite E. }
  split; [|split; [|split; [|split; [|split; [|split]]]]].
  - apply (notification_call_equipment (call_markNotificationRead id) w).
  - apply (notification_call_equipment (call_markNotificationRead id) w).
  - intros k n Hk. rewrite markNotificationRead_stored. unfold marked.
    now rewrite nth_error_map, Hk.
  - intros Hnone. unfold markNotificationRead, bind, getItem_notifications.
    now rewrite Hnone.
  - unfold markNotificationRead, bind, getItem_notifications,
      stored_notifications.
    destruct w as [seed db [l|]]; cbn; [|reflexivity].
    intros Hno. fold (marked id l). now rewrite Hmarked_absent.
  - unfold markNotificationRead, bind, getItem_notifications.
    destruct w as [seed db [l|]]; cbn; [|reflexivity].
    fold (marked id l). fold (marked id (marked id l)).
    now rewrite Hmarked_twice.
  - rewrite !getNotifications_stored, markNotificationRead_stored.
    unfold marked. apply listing_map; intros n;
      now destruct (String.eqb (n_id n) id).
Qed.

(** X12.  Mark all, then list.  After [markAllRead userId role], the same
    user's [getNotifications userId role] answers with its previous answer,
    in the same order, every notification now with [read] true; and a
    second [markAllRead userId role] changes nothing. *)
Theorem markAllRead_then_list (w : World) (userId : string)
  (role : UserRole) :
  let w' := snd (markAllRead userId role w) in
  fst (getNotifications getTime userId role w') =
    map set_read (fst (getNotifications getTime userId role w)) /\
  Forall (fun n => n_read n = true)
         (fst (getNotifications getTime userId role w')) /\
  snd (markAllRead userId role w') = w'.
Proof.
  cbv zeta.
  assert (Hlist : fst (getNotifications getTime userId role
                         (snd (markAllRead userId role w))) =
                  map set_read (fst (getNotifications getTime userId role w))).
  { rewrite !getNotifications_stored, markAllRead_stored.
    rewrite listing_map;
      [|intros n; now destruct (addressed_to userId role n)
       |intros n; now destruct (addressed_to userId role n) eqn:E].
    set (l := sort getTime _).
    assert (Hall : Forall (fun n => addressed_to userId role n = true) l).
    { apply Forall_forall. intros n Hn. subst l.
      apply (Permutation_in _ (sort_permutation getTime _)) in Hn.
      now apply filter_In in Hn. }
    induction Hall as [|a r Ha _ IH]; [reflexivity|].
    cbn [map]. now rewrite Ha, IH. }
  split; [exact Hlist|]. split.
  - rewrite Hlist. apply Forall_forall. intros n Hn.
    apply in_map_iff in Hn. now destruct Hn as [m [<- _]].
  - unfold markAllRead, bind, getItem_notifications.
    destruct w as [seed db [l|]]; cbn; [|reflexivity].
    do 2 f_equal. rewrite map_map. apply map_ext. intros n.
    destruct (addressed_to userId role n) eqn:E; [|now rewrite E].
    change (addressed_to userId role (set_read n))
      with (addressed_to userId role n).
    now rewrite E.
Qed.

End ListingFacts.

Lemma kept_as_refl (l : list AppNotification) : Forall2 kept_as l l.
Proof. induction l; constructor; [now left|assumption]. Qed.

Lemma kept_as_rewritten (f : AppNotification -> AppNotification)
  (l : list AppNotification) :
  (forall n, f n = n \/ f n = set_read n) -> Forall2 kept_as l (map f l).
Proof.
  intros Hf. induction l as [|a r IH]; constructor; [apply Hf|exact IH].
Qed.

Lemma kept_as_trans (l1 l2 l3 : list AppNotification) :
  Forall2 kept_as l1 l2 -> Forall2 kept_as l2 l3 -> Forall2 kept_as l1 l3.
Proof.
  intros H12. revert l3. induction H12 as [|a b r1 r2 Hab _ IH]; intros l3 H23.
  - inversion H23. constructor.
  - inversion H23 as [|? c ? r3 Hbc Hr]; subst. constructor; [|now apply IH].
    destruct Hab as [-> | ->], Hbc as [-> | ->]; (now left) || (now right).
Qed.

Lemma call_keeps_notifications (c : Call) (w : World) :
  exists added kept,
    stored_notifications (after c w) = added ++ kept /\
    List.length added <= 1 /\
    Forall2 kept_as (stored_notifications w) kept.
Proof.
  assert (Hsame : forall w', sound_equip_notifications_v1 w' =
                             sound_equip_notifications_v1 w ->
                  exists added kept,
                    stored_notifications w' = added ++ kept /\
                    List.length added <= 1 /\
                    Forall2 kept_as (stored_notifications w) kept).
  { intros w' H. exists [], (stored_notifications w).
    unfold stored_notifications. rewrite H. cbn.
    split; [reflexivity|]. split; [lia|apply kept_as_refl]. }
  assert (Hnew : forall w' n, sound_equip_notifications_v1 w' =
                              Some (n :: stored_notifications w) ->
                 exists added kept,
                   stored_notifications w' = added ++ kept /\
                   List.length added <= 1 /\
                   Forall2 kept_as (stored_notifications w) kept).
  { intros w' n H. exists [n], (stored_notifications w).
    unfold stored_notifications at 1. rewrite H. cbn.
    split; [reflexivity|]. split; [lia|apply kept_as_refl]. }
  destruct c; cbn [after].
  - apply Hsame. now rewrite getAll_run.
  - apply Hsame. now rewrite save_run.
  - apply Hsame. now rewrite delete_run.
  - apply Hsame. destruct (find (same_id id) (collection w)) as [item|] eqn:Hf.
    + now rewrite (toggleStatus_found w id newStatus item Hf).
    + rewrite (toggleStatus_not_found w id newStatus Hf). cbn [snd].
      now rewrite getAll_run.
  - destruct (find (same_id id) (collection w)) as [item|] eqn:Hf.
    + apply Hnew with (n := alert_for log item fresh now).
      now rewrite (addLog_found w id log fresh now item Hf).
    + apply Hsame. rewrite (addLog_not_found w id log fresh now Hf).
      cbn [snd]. now rewrite getAll_run.
  - destruct (find (same_id id) (collection w)) as [item|] eqn:Hf.
    + rewrite (resolveMaintenance_found w id stamp fresh now item Hf).
      cbn [snd]. unfold notifications_after_resolve.
      destruct (last_log item) as [l|]; [|now apply Hsame].
      destruct (truthy (log_reportedById l)); [|now apply Hsame].
      now apply Hnew with (n := success_for (log_reportedById l) item
                                            fresh now).
    + apply Hsame. rewrite (resolveMaintenance_not_found w id stamp fresh now Hf).
      cbn [snd]. now rewrite getAll_run.
  - apply Hnew with (n := created fresh now data).
    now rewrite createNotification_run.
  - exists [], (stored_notifications (snd (markNotificationRead
                                              notificationId w))).
    split; [reflexivity|]. split; [cbn; lia|].
    rewrite markNotificationRead_stored. apply kept_as_rewritten.
    intros n. destruct (String.eqb (n_id n) notificationId); tauto.
  - exists [], (stored_notifications (snd (markAllRead userId role w))).
    split; [reflexivity|]. split; [cbn; lia|].
    rewrite markAllRead_stored. apply kept_as_rewritten.
    intros n. destruct (addressed_to userId role n); tauto.
Qed.

(** X13.  Notifications are never deleted, reordered or altered except for
    [read] being set: after any sequence of calls the notification array is
    a block of new notifications, at most one per call, followed by the
    notifications stored before, in their order, each as it was or with
    [read] true. *)
Theorem notifications_are_kept (calls : list Call) (w : World) :
  exists added kept,
    stored_notifications (fold_left (fun x c => after c x) calls w) =
      added ++ kept /\
    List.length added <= List.length calls /\
    Forall2 kept_as (stored_notifications w) kept.
Proof.
  revert w. induction calls as [|c cs IH]; intros w.
  - exists [], (stored_notifications w). cbn.
    split; [reflexivity|]. split; [lia|apply kept_as_refl].
  - cbn [fold_left].
    destruct (call_keeps_notifications c w) as (a1 & k1 & H1 & Hlen1 & Hk1).
    destruct (IH (after c w)) as (a2 & k2 & H2 & Hlen2 & Hk2).
    rewrite H1 in Hk2. apply Forall2_app_inv_l in Hk2.
    destruct Hk2 as (ka & kk & Hka & Hkk & ->).
    exists (a2 ++ ka), kk. split; [now rewrite H2, app_assoc|]. split.
    + rewrite length_app, <- (Forall2_length Hka). cbn [List.length]. lia.
    + now apply kept_as_trans with (l2 := k1).
Qed.

(** ** The handlers of the application *)

Section HandlerFacts.

Variable getTime : string -> option Z.

Lemma listing_after_markNotificationRead (w : World) (id userId : string)
  (role : UserRole) :
  fst (getNotifications getTime userId role
         (snd (markNotificationRead id w))) =
  marked id (fst (getNotifications getTime userId role w)).
Proof.
  rewrite !getNotifications_stored, markNotificationRead_stored.
  unfold marked. apply listing_map; intros n;
    now destruct (String.eqb (n_id n) id).
Qed.

Lemma listing_after_markAllRead (w : World) (userId : string)
  (role : UserRole) :
  fst (getNotifications getTime userId role (snd (markAllRead userId role w)))
  = map set_read (fst (getNotifications getTime userId role w)).
Proof.
  rewrite !getNotifications_stored, markAllRead_stored.
  rewrite listing_map;
    [|intros n; now destruct (addressed_to userId role n)
     |intros n; now destruct (addressed_to userId role n) eqn:E].
  set (l := sort getTime _).
  assert (Hall : Forall (fun n => addressed_to userId role n = true) l).
  { apply Forall_forall. intros n Hn. subst l.
    apply (Permutation_in _ (sort_permutation getTime _)) in Hn.
    now apply filter_In in Hn. }
  induction Hall as [|a r Ha _ IH]; [reflexivity|].
  cbn [map]. now rewrite Ha, IH.
Qed.

(** X14.  From the dialog to the bell.  When a logged-in user (of either
    role) reports a problem on an item whose id is in the collection,
    [handleReportIssue] stores the item with status "maintenance" and the
    user's report as its last log, and the administrator's listing then
    holds an unread "alert" about that item naming the user.  After
    [resolveMaintenance] on the item, the item is "available", its last log
    carries the resolution time, and the reporting user's own listing holds
    an unread "success" about that item: the ids [handleLogin] gives are
    never empty, so the reporter is always notified. *)
Theorem reported_issue_is_announced (w : World) (role : UserRole)
  (reportItem found : Equipment) (description : string)
  (now_ms now_iso fresh1 now1 stamp fresh2 now2 : string) :
  find (same_id (eq_id reportItem)) (collection w) = Some found ->
  let u := fst (handleLogin role) in
  let boss := fst (handleLogin admin) in
  let w1 := snd (handleReportIssue (Some reportItem) (Some u) description
                   now_ms now_iso fresh1 now1 w) in
  let w2 := snd (resolveMaintenance (eq_id reportItem) stamp fresh2 now2 w1) in
  (exists item1,
     find (same_id (eq_id reportItem)) (collection w1) = Some item1 /\
     eq_status item1 = maintenance /\
     last_log item1 =
       Some (mkLog now_ms now_iso description (u_name u) (u_id u) None)) /\
  (exists a,
     In a (fst (getNotifications getTime (u_id boss) (u_role boss) w1)) /\
     n_type a = "alert" /\ n_read a = false /\
     n_relatedEquipmentId a = Some (eq_id reportItem) /\
     n_message a =
       (u_name u ++ " reportou um problema em: " ++ eq_name found)%string) /\
  (exists item2,
     find (same_id (eq_id reportItem)) (collection w2) = Some item2 /\
     eq_status item2 = available /\
     option_map log_resolvedAt (last_log item2) = Some (Some stamp)) /\
  (exists s,
     In s (fst (getNotifications getTime (u_id u) (u_role u) w2)) /\
     n_type s = "success" /\ n_read s = false /\
     n_recipientUserId s = Some (u_id u) /\
     n_relatedEquipmentId s = Some (eq_id reportItem) /\
     n_message s =
       ("O equipamento " ++ eq_name found
          ++ " foi reparado e está disponível.")%string).
Proof.
  intros Hfind. pose proof (find_same_id _ _ _ Hfind) as [Hid _]. cbv zeta.
  set (u := fst (handleLogin role)).
  set (log := mkLog now_ms now_iso description (u_name u) (u_id u) None).
  assert (Hrun : snd (handleReportIssue (Some reportItem) (Some u) description
                        now_ms now_iso fresh1 now1 w) =
                 snd (addLog (eq_id reportItem) log fresh1 now1 w)).
  { unfold handleReportIssue, bind. fold log.
    now destruct (addLog (eq_id reportItem) log fresh1 now1 w). }
  rewrite Hrun. clear Hrun.
  rewrite (addLog_found w (eq_id reportItem) log fresh1 now1 found Hfind).
  cbn [snd]. set (w1 := mkWorld _ _ _).
  assert (Hfind1 : find (same_id (eq_id reportItem)) (collection w1) =
                   Some (reported log found)).
  { subst w1. cbn [collection sound_equip_db_v1].
    now apply find_replaced with (item := found). }
  assert (Hlast1 : last_log (reported log found) = Some log).
  { now apply last_log_snoc with (ls := eq_logs found). }
  rewrite (resolveMaintenance_found w1 (eq_id reportItem) stamp fresh2 now2
             _ Hfind1).
  cbn [snd]. set (w2 := mkWorld _ _ _).
  assert (Htruthy : truthy (u_id u) = true) by (subst u; now destruct role).
  split; [|split; [|split]].
  - exists (reported log found). now repeat split.
  - exists (alert_for log found fresh1 now1). split.
    + apply getNotifications_In. split; [|reflexivity].
      subst w1. cbn. now left.
    + repeat split. cbn. now rewrite Hid.
  - exists (resolved stamp (reported log found)). split.
    + subst w2. cbn [collection sound_equip_db_v1].
      apply find_replaced with (item := reported log found);
        [exact Hfind1|exact Hid].
    + split; [reflexivity|].
      rewrite (last_log_snoc _ _ _
                 (resolved_logs stamp (reported log found) log Hlast1)).
      reflexivity.
  - exists (success_for (u_id u) (resolved stamp (reported log found))
                        fresh2 now2).
    split.
    + apply getNotifications_In. split.
      * subst w2. unfold stored_notifications.
        cbn [sound_equip_notifications_v1].
        unfold notifications_after_resolve. rewrite Hlast1.
        cbn [log_reportedById log]. rewrite Htruthy. now left.
      * apply addressed_to_spec. now right.
    + repeat split. cbn. now rewrite Hid.
Qed.

(** X15.  Marking from the bell never changes which notifications the user
    sees, or their order.  With a user logged in, [handleMarkRead] hands to
    the view the listing as it was before with [read] set on the
    notifications of the given id, and [handleMarkAllRead] the listing as
    it was before with [read] set on every one; both lists carry the same
    ids in the same order as before.  Without a user [handleMarkAllRead]
    does nothing, while [handleMarkRead] still marks the notification. *)
Theorem mark_handlers_keep_listing (w : World) (u : User) (id : string) :
  let before := fst (getNotifications getTime (u_id u) (u_role u) w) in
  fst (handleMarkRead getTime (Some u) id w) = Some (marked id before) /\
  map n_id (marked id before) = map n_id before /\
  fst (handleMarkAllRead getTime (Some u) w) = Some (map set_read before) /\
  map n_id (map set_read before) = map n_id before /\
  Forall (fun n => n_read n = true) (map set_read before) /\
  handleMarkAllRead getTime None w = (None, w) /\
  handleMarkRead getTime None id w = (None, snd (markNotificationRead id w)).
Proof.
  cbv zeta. split; [|split; [|split; [|split; [|split; [|split]]]]].
  - unfold handleMarkRead, bind.
    rewrite <- listing_after_markNotificationRead.
    destruct (markNotificationRead id w) as [[] w1]. cbn [snd].
    now destruct (getNotifications getTime (u_id u) (u_role u) w1).
  - unfold marked. rewrite map_map. apply map_ext. intros n.
    now destruct (String.eqb (n_id n) id).
  - unfold handleMarkAllRead, bind. rewrite <- listing_after_markAllRead.
    destruct (markAllRead (u_id u) (u_role u) w) as [[] w1]. cbn [snd].
    now destruct (getNotifications getTime (u_id u) (u_role u) w1).
  - rewrite map_map. now apply map_ext.
  - apply Forall_forall. intros n Hn. apply in_map_iff in Hn.
    now destruct Hn as [m [<- _]].
  - reflexivity.
  - unfold handleMarkRead, bind.
    now destruct (markNotificationRead id w) as [[] w1].
Qed.

(** X16.  Polling is harmless.  [refreshData] hands to the view the
    collection and, with a user logged in, that user's listing; it leaves
    the collection and the notification key as they were, and a second
    [refreshData] right after the first answers the same and changes
    nothing more. *)
Theorem refreshData_is_harmless (w : World) (user : option User) :
  let first := refreshData getTime user w in
  let again := refreshData getTime user (snd first) in
  fst (fst first) = collection w /\
  snd (fst first) =
    option_map (fun u => fst (getNotifications getTime (u_id u) (u_role u) w))
               user /\
  collection (snd first) = collection w /\
  sound_equip_notifications_v1 (snd first) = sound_equip_notifications_v1 w /\
  again = first.
Proof.
  cbv zeta.
  assert (Hrun : forall x,
            refreshData getTime user x =
            ((collection x,
              option_map (fun u => fst (getNotifications getTime (u_id u)
                                          (u_role u) x)) user),
             snd (getAll x))).
  { intros x. unfold refreshData, bind. rewrite getAll_run. cbn [items snd].
    destruct user as [u|]; [|reflexivity].
    rewrite !getNotifications_run. reflexivity. }
  rewrite !Hrun. cbn [fst snd]. rewrite collection_getAll.
  split; [reflexivity|]. split; [reflexivity|]. split; [reflexivity|].
  split; [now rewrite getAll_run|].
  f_equal; [f_equal|].
  - destruct user as [u|]; [|reflexivity]. cbn [option_map].
    rewrite !getNotifications_stored. unfold stored_notifications.
    now rewrite getAll_run.
  - rewrite !getAll_run. reflexivity.
Qed.

End HandlerFacts.

Lemma reported_issue_is_announced_witness :
  find (same_id "4") (collection fresh_world) =
    Some (mkEquipment "4" "Yamaha DBR10" "Yamaha" "Caixas de Som" available
            "2021-11-05" []) /\
  exists s,
    In s (fst (getNotifications sample_getTime "user-1" user
                 (snd (resolveMaintenance "4" "2023-11-20T10:00:00.000Z"
                         "1700474400000" "2023-11-15T08:00:00.000Z"
                         (snd (handleReportIssue
                                 (Some (mkEquipment "4" "Yamaha DBR10" "Yamaha"
                                          "Caixas de Som" available
                                          "2021-11-05" []))
                                 (Some (fst (handleLogin user)))
                                 "Sem som" "1700000000000"
                                 "2023-11-14T22:13:20.000Z" "1700000000001"
                                 "2023-11-14T22:13:21.000Z" fresh_world)))))) /\
    n_type s = "success" /\ n_recipientUserId s = Some "user-1".
Proof.
  split; [reflexivity|].
  destruct (reported_issue_is_announced sample_getTime fresh_world user
              (mkEquipment "4" "Yamaha DBR10" "Yamaha" "Caixas de Som"
                 available "2021-11-05" [])
              _ "Sem som" "1700000000000" "2023-11-14T22:13:20.000Z"
              "1700000000001" "2023-11-14T22:13:21.000Z"
              "2023-11-20T10:00:00.000Z" "1700474400000"
              "2023-11-15T08:00:00.000Z" eq_refl)
    as (_ & _ & _ & s & Hin & Ht & _ & Hu & _).
  exists s. repeat split; assumption.
Defined.

(** ** Histories *)

Lemma stamp_last_report (stamp : string) (ls : list MaintenanceLog) :
  map log_report (stamp_last stamp ls) = map log_report ls.
Proof.
  induction ls as [|l r IH]; [reflexivity|].
  destruct r as [|l' r']; [reflexivity|].
  change (stamp_last stamp (l :: l' :: r'))
    with (l :: stamp_last stamp (l' :: r')).
  cbn [map] in *. now rewrite IH.
Qed.

(** X17.  The reports in an item's history are never rewritten or dropped.
    When [id] is in the collection, the item stored under [id] after
    [toggleStatus] or [resolveMaintenance] has the same logs, report by
    report (id, date, description, reporter name and id) and in the same
    order, and after [addLog] the same followed by the new report; name,
    brand, category and purchase date of the item stay as they were. *)
Theorem history_is_preserved (w : World) (id : string) (item : Equipment)
  (s : EquipmentStatus) (log : MaintenanceLog) (stamp fresh now : string) :
  find (same_id id) (collection w) = Some item ->
  (exists e, find (same_id id) (collection (snd (toggleStatus id s w))) =
               Some e /\
     map log_report (eq_logs e) = map log_report (eq_logs item) /\
     (eq_name e, eq_brand e, eq_category e, eq_purchaseDate e) =
     (eq_name item, eq_brand item, eq_category item, eq_purchaseDate item)) /\
  (exists e, find (same_id id)
               (collection (snd (addLog id log fresh now w))) = Some e /\
     map log_report (eq_logs e) =
       map log_report (eq_logs item) ++ [log_report log] /\
     (eq_name e, eq_brand e, eq_category e, eq_purchaseDate e) =
     (eq_name item, eq_brand item, eq_category item, eq_purchaseDate item)) /\
  (exists e, find (same_id id)
               (collection (snd (resolveMaintenance id stamp fresh now w))) =
               Some e /\
     map log_report (eq_logs e) = map log_report (eq_logs item) /\
     (eq_name e, eq_brand e, eq_category e, eq_purchaseDate e) =
     (eq_name item, eq_brand item, eq_category item, eq_purchaseDate item)).
Proof.
  intros Hfind. pose proof (find_same_id _ _ _ Hfind) as [Hid _].
  split; [|split].
  - exists (set_status s item).
    rewrite (toggleStatus_found w id s item Hfind).
    cbn [snd collection sound_equip_db_v1]. split; [|now split].
    now apply find_replaced with (item := item).
  - exists (reported log item).
    rewrite (addLog_found w id log fresh now item Hfind).
    cbn [snd collection sound_equip_db_v1]. split; [|split; [|reflexivity]].
    + now apply find_replaced with (item := item).
    + cbn. now rewrite map_app.
  - exists (resolved stamp item).
    rewrite (resolveMaintenance_found w id stamp fresh now item Hfind).
    cbn [snd collection sound_equip_db_v1]. split; [|split; [|reflexivity]].
    + now apply find_replaced with (item := item).
    + cbn. apply stamp_last_report.
Qed.

Lemma history_is_preserved_witness :
  find (same_id "3") (collection fresh_world) = Some seed_cable /\
  exists e,
    find (same_id "3")
      (collection (snd (resolveMaintenance "3" "2023-11-01T09:00:00.000Z"
                          "1698829200000" "2023-11-01T09:00:00.002Z"
                          fresh_world))) = Some e /\
    map log_description (eq_logs e) = ["Conector com mau contato"].
Proof.
  split; [reflexivity|].
  destruct (history_is_preserved fresh_world "3" seed_cable available
              sample_log "2023-11-01T09:00:00.000Z" "1698829200000"
              "2023-11-01T09:00:00.002Z" eq_refl)
    as (_ & _ & e & He & Hlogs & _).
  exists e. split; [exact He|].
  change (map log_description (eq_logs e))
    with (map (fun l => snd (fst (fst (log_report l)))) (eq_logs e)).
  rewrite <- (map_map log_report (fun p => snd (fst (fst p)))), Hlogs.
  reflexivity.
Defined.

Section AlreadySorted.

Variable getTime : string -> option Z.

Lemma sort_insert_front (a : AppNotification) (l : list AppNotification) :
  Forall (not_older getTime a) l -> sort_insert getTime a l = a :: l.
Proof.
  intros H. destruct H as [|b r Hab _]; [reflexivity|]. cbn [sort_insert].
  unfold keeps_order, compareFn. unfold not_older in Hab.
  destruct (getTime (n_date a)) as [ta|], (getTime (n_date b)) as [tb|];
    try contradiction.
  destruct (Z.leb_spec (tb - ta) 0); [reflexivity|lia].
Qed.

Lemma sort_sorted_fixpoint (l : list AppNotification) :
  StronglySorted (not_older getTime) l -> sort getTime l = l.
Proof.
  induction 1 as [|a r Hr IH Ha]; [reflexivity|].
  cbn [sort fold_right]. fold (sort getTime r). rewrite IH.
  now apply sort_insert_front.
Qed.

Lemma filter_sorted (p : AppNotification -> bool)
  (l : list AppNotification) :
  StronglySorted (not_older getTime) l ->
  StronglySorted (not_older getTime) (filter p l).
Proof.
  induction 1 as [|a r Hr IH Ha]; [constructor|]. cbn [filter].
  destruct (p a); [|exact IH]. constructor; [exact IH|].
  rewrite Forall_forall in *. intros x Hx. apply filter_In in Hx.
  now apply Ha.
Qed.

(** X18.  When the stored notifications are already ordered by date, most
    recent first (as they are when each new one is put in front with a
    clock that does not run backwards), [getNotifications] keeps the stored
    order: its answer is the stored array with the notifications of other
    recipients left out. *)
Theorem getNotifications_keeps_stored_order (w : World) (userId : string)
  (role : UserRole) :
  StronglySorted (not_older getTime) (stored_notifications w) ->
  fst (getNotifications getTime userId role w) =
  filter (addressed_to userId role) (stored_notifications w).
Proof.
  intros Hs. rewrite getNotifications_run. cbn [fst].
  apply sort_sorted_fixpoint. now apply filter_sorted.
Qed.

End AlreadySorted.

Lemma getNotifications_keeps_stored_order_witness :
  StronglySorted (not_older sample_getTime)
    (stored_notifications
       (mkWorld INITIAL_DATA None
                (Some [repaired_note; newer_alert; older_alert]))) /\
  fst (getNotifications sample_getTime "admin-1" admin
         (mkWorld INITIAL_DATA None
                  (Some [repaired_note; newer_alert; older_alert]))) =
  [newer_alert; older_alert].
Proof.
  assert (Hs : StronglySorted (not_older sample_getTime)
                 (stored_notifications
                    (mkWorld INITIAL_DATA None
                       (Some [repaired_note; newer_alert; older_alert])))).
  { cbn. repeat constructor; cbv; discriminate. }
  split; [exact Hs|].
  exact (getNotifications_keeps_stored_order sample_getTime _ "admin-1" admin
           Hs).
Defined.

Lemma call_keeps_targets (c : Call) (w : World) :
  application_call c ->
  Forall well_targeted (stored_notifications w) ->
  Forall well_targeted (stored_notifications (after c w)).
Proof.
  intros Hc Hall.
  assert (Hsame : forall w', sound_equip_notifications_v1 w' =
                             sound_equip_notifications_v1 w ->
                  Forall well_targeted (stored_notifications w')).
  { intros w' H. unfold stored_notifications in *. now rewrite H. }
  assert (Hnew : forall w' n, well_targeted n ->
                 sound_equip_notifications_v1 w' =
                   Some (n :: stored_notifications w) ->
                 Forall well_targeted (stored_notifications w')).
  { intros w' n Hn H. unfold stored_notifications at 1. rewrite H.
    now constructor. }
  assert (Hmap : forall f : AppNotification -> AppNotification,
             (forall n, f n = n \/ f n = set_read n) ->
             Forall well_targeted (map f (stored_notifications w))).
  { intros f Hf. apply Forall_map. apply Forall_impl with (2 := Hall).
    intros n Hn. destruct (Hf n) as [-> | ->]; exact Hn. }
  destruct c; cbn [after application_call] in *; try contradiction.
  - apply Hsame. now rewrite getAll_run.
  - apply Hsame. now rewrite save_run.
  - apply Hsame. now rewrite delete_run.
  - apply Hsame. destruct (find (same_id id) (collection w)) as [item|] eqn:Hf.
    + now rewrite (toggleStatus_found w id newStatus item Hf).
    + rewrite (toggleStatus_not_found w id newStatus Hf). cbn [snd].
      now rewrite getAll_run.
  - destruct (find (same_id id) (collection w)) as [item|] eqn:Hf.
    + apply Hnew with (n := alert_for log item fresh now).
      * split; [discriminate|]. left. now repeat split.
      * now rewrite (addLog_found w id log fresh now item Hf).
    + apply Hsame. rewrite (addLog_not_found w id log fresh now Hf).
      cbn [snd]. now rewrite getAll_run.
  - destruct (find (same_id id) (collection w)) as [item|] eqn:Hf.
    + rewrite (resolveMaintenance_found w id stamp fresh now item Hf).
      cbn [snd]. unfold notifications_after_resolve.
      destruct (last_log item) as [l|]; [|now apply Hsame].
      destruct (truthy (log_reportedById l)) eqn:Ht; [|now apply Hsame].
      apply Hnew with (n := success_for (log_reportedById l) item fresh now);
        [|reflexivity].
      split; [discriminate|]. right. repeat split.
      exists (log_reportedById l). split; [reflexivity|].
      unfold truthy in Ht. apply negb_true_iff in Ht.
      now apply String.eqb_neq.
    + apply Hsame. rewrite (resolveMaintenance_not_found w id stamp fresh now Hf).
      cbn [snd]. now rewrite getAll_run.
  - rewrite markNotificationRead_stored. apply Hmap.
    intros n. destruct (String.eqb (n_id n) notificationId); tauto.
  - rewrite markAllRead_stored. apply Hmap.
    intros n. destruct (addressed_to userId role n); tauto.
Qed.

(** X19.  Every notification has one kind of recipient.  In every world
    reached from a fresh page by the calls the application makes (no direct
    [createNotification]), each stored notification relates to an item and
    is either an "alert" with recipient role admin and no recipient user,
    or a "success" with no recipient role and a non-empty recipient user
    id. *)
Theorem notifications_are_targeted (w : World) :
  reachable_by application_call w ->
  Forall well_targeted (stored_notifications w).
Proof.
  induction 1 as [|w c Hw IH Hc]; [constructor|].
  now apply call_keeps_targets.
Qed.

Lemma notifications_are_targeted_witness :
  let w := after (call_resolveMaintenance "3" "2023-11-01T09:00:00.000Z"
                    "1698829200000" "2023-11-01T09:00:00.002Z")
             (after (call_addLog "1" sample_log "1700000000001"
                       "2023-11-14T22:13:21.000Z") fresh_world) in
  reachable_by application_call w /\
  List.length (stored_notifications w) = 2 /\
  Forall well_targeted (stored_notifications w).
Proof.
  cbv zeta.
  assert (Hw : reachable_by application_call
                 (after (call_resolveMaintenance "3" "2023-11-01T09:00:00.000Z"
                           "1698829200000" "2023-11-01T09:00:00.002Z")
                    (after (call_addLog "1" sample_log "1700000000001"
                              "2023-11-14T22:13:21.000Z") fresh_world))).
  { apply reach_call; [apply reach_call; [apply reach_fresh|]|]; exact I. }
  split; [exact Hw|]. split; [reflexivity|].
  exact (notifications_are_targeted _ Hw).
Defined.

Lemma replaced_found_again (id : string) (item : Equipment)
  (l : list Equipment) :
  NoDup (map eq_id l) -> find (same_id id) l = Some item ->
  replaced id item l = l.
Proof.
  intros Hnd Hfind.
  destruct (replaced_first id item item l Hfind) as (l1 & l2 & Hsplit & Hrep).
  rewrite Hrep, Hsplit. do 2 f_equal. apply replaced_absent.
  rewrite Hsplit, map_app in Hnd. cbn [map] in Hnd.
  apply NoDup_remove_2 in Hnd. apply find_same_id in Hfind.
  destruct Hfind as [Hid _]. rewrite Hid in Hnd.
  intros Hin. apply Hnd. apply in_or_app. now right.
Qed.

(** X20.  Of two status changes the last one wins, and changing back
    restores.  When [id] is in the collection, [toggleStatus id s] followed
    by [toggleStatus id s'] stores the same collection as [toggleStatus id
    s'] alone; and when ids are unique and [s'] is the status the item had,
    that is the collection as it was before both. *)
Theorem toggleStatus_twice (w : World) (id : string) (s s' : EquipmentStatus)
  (item : Equipment) :
  find (same_id id) (collection w) = Some item ->
  collection (snd (toggleStatus id s' (snd (toggleStatus id s w)))) =
    collection (snd (toggleStatus id s' w)) /\
  (NoDup (map eq_id (collection w)) -> s' = eq_status item ->
   collection (snd (toggleStatus id s' (snd (toggleStatus id s w)))) =
     collection w).
Proof.
  intros Hfind. pose proof (find_same_id _ _ _ Hfind) as [Hid _].
  assert (Htwice :
            collection (snd (toggleStatus id s' (snd (toggleStatus id s w)))) =
            replaced id (set_status s' item) (collection w)).
  { rewrite (toggleStatus_found w id s item Hfind). cbn [snd].
    set (w1 := mkWorld _ _ _).
    assert (Hfind1 : find (same_id id) (collection w1) =
                     Some (set_status s item)).
    { subst w1. cbn [collection sound_equip_db_v1].
      now apply find_replaced with (item := item). }
    rewrite (toggleStatus_found w1 id s' _ Hfind1).
    subst w1. cbn [snd collection sound_equip_db_v1].
    now apply replaced_twice. }
  split.
  - rewrite Htwice. now rewrite (toggleStatus_found w id s' item Hfind).
  - intros Hnd ->. rewrite Htwice.
    assert (Hsame : set_status (eq_status item) item = item)
      by now destruct item.
    rewrite Hsame. now apply replaced_found_again.
Qed.

Lemma toggleStatus_twice_witness :
  find (same_id "1") (collection fresh_world) = Some seed_microphone /\
  collection (snd (toggleStatus "1" available
                     (snd (toggleStatus "1" in_use fresh_world)))) =
  INITIAL_DATA.
Proof.
  split; [reflexivity|].
  destruct (toggleStatus_twice fresh_world "1" in_use available
              seed_microphone eq_refl) as [_ Hback].
  apply Hback; [|reflexivity].
  cbn. repeat constructor; cbn; intuition discriminate.
Defined.
